(** * The ASE calculator of s-dftd3 ([python/dftd3/ase.py])

    A shallow embedding of the [DFTD3] calculator class and the properties
    of its cache handling, error mapping and unit conversion.

    The class is an adapter: the dispersion engine ([dftd3.interface]) and
    the host framework (ASE) are external.  The engine is a record of
    oracles that a theorem quantifies over; every call that crosses the
    engine boundary is appended to a log, so that "the model is rebuilt" and
    "the model is reused" are statements about that log.  The few methods of
    ASE's [Calculator] base class that the adapter calls are written out.

    Python floats and numpy [float64] entries are IEEE binary64 numbers,
    modelled by [SpecFloat] at precision 53 and maximal exponent 1024. *)

From Stdlib Require Import ZArith Bool List.
From Corelib Require Import SpecFloat.
From stdpp Require Import base option list strings gmap fin_maps.

Local Open Scope string_scope.
Local Open Scope list_scope.

(** ** Floating point numbers and arrays *)

Module Float.

Definition float : Type := spec_float.

Definition prec : Z := 53.
Definition emax : Z := 1024.

Definition mul (x y : float) : float := SFmul prec emax x y.
Definition div (x y : float) : float := SFdiv prec emax x y.
Definition opp (x : float) : float := SFopp x.

(** The binary64 number nearest to an integer. *)
Definition of_Z (z : Z) : float := binary_normalize prec emax z 0 false.

#[global] Instance float_eq_dec : EqDecision float.
Proof. solve_decision. Defined.

End Float.

Abbreviation float := Float.float.

(** A one-dimensional and a two-dimensional numpy array of [float64], the
    second as the list of its rows. *)
Definition array1 : Type := list float.
Definition array2 : Type := list (list float).

(** Broadcasting of a scalar over an array: [a * x], [a / x], [-a]. *)
Definition array2_mul (a : array2) (x : float) : array2 :=
  map (map (fun v => Float.mul v x)) a.
Definition array2_div (a : array2) (x : float) : array2 :=
  map (map (fun v => Float.div v x)) a.
Definition array2_neg (a : array2) : array2 :=
  map (map Float.opp) a.

(** ** Exceptions *)

Inductive exn : Type :=
| RuntimeError
| InputError
| CalculationFailed
| KeyError
| AttributeError
| ValueError
| IndexError
| TypeError.

#[global] Instance exn_eq_dec : EqDecision exn.
Proof. solve_decision. Defined.

(** [isinstance(e, RuntimeError)]: what an [except RuntimeError] clause
    catches.  ASE derives its calculator errors, [InputError] and
    [CalculationFailed] among them, from [RuntimeError]. *)
Definition isinstance_RuntimeError (e : exn) : bool :=
  match e with
  | RuntimeError | InputError | CalculationFailed => true
  | _ => false
  end.

Inductive outcome (A : Type) : Type :=
| Return (a : A)
| Raise (e : exn).
Arguments Return {A} a.
Arguments Raise {A} e.

(** ** Data model *)

(** The structure handed over by the framework ([ase.Atoms]). *)
Record Atoms : Type := {
  numbers : list Z;
  positions : array2;
  cell : array2;
  pbc : list bool
}.

(** [atoms.pbc.any()] *)
Definition pbc_any (a : Atoms) : bool := existsb (fun b => b) (pbc a).

(** Values of keyword arguments and of parameters. *)
Inductive pyval : Type :=
| PyNone
| PyStr (s : string)
| PyFloat (x : float).

#[global] Instance pyval_eq_dec : EqDecision pyval.
Proof. solve_decision. Defined.

(** [None] or a string. *)
Definition opt_str (o : option string) : pyval :=
  match o with
  | None => PyNone
  | Some s => PyStr s
  end.

(** The calculator parameters ([default_parameters] gives the keys).
    [params_tweaks] is a dict or [None]. *)
Record Parameters : Type := {
  method : option string;
  damping : option string;
  params_tweaks : option (gmap string pyval);
  cache_api : bool
}.

Definition default_parameters : Parameters :=
  {| method := None; damping := None; params_tweaks := Some ∅; cache_api := true |}.

(** Modelled from the spec: the damping parameter classes of
    [dftd3.interface], which this file imports; the table below refers to
    five of them. *)
Inductive damping_class : Type :=
| RationalDampingParam
| ZeroDampingParam
| ModifiedRationalDampingParam
| ModifiedZeroDampingParam
| OptimizedPowerDampingParam.

#[global] Instance damping_class_eq_dec : EqDecision damping_class.
Proof. solve_decision. Defined.

(** Modelled from the spec: a damping parameter object of
    [dftd3.interface], as the class and the keyword arguments it was built
    from. *)
Record DampingParam : Type := {
  dp_class : damping_class;
  dp_kwargs : gmap string pyval
}.

(** Modelled from the spec: the native model object of [dftd3.interface],
    [DispersionModel(numbers, positions, cell, periodic)], as the geometry the
    engine currently holds for it. *)
Record DispersionModel : Type := {
  m_numbers : list Z;
  m_positions : array2;
  m_cell : array2;
  m_periodic : list bool
}.

(** Modelled from the spec: the effect of [handle.update(positions, cell)]
    of [dftd3.interface] on the object, done in place. *)
Definition model_updated (h : DispersionModel) (pos lat : array2) : DispersionModel :=
  {| m_numbers := m_numbers h; m_positions := pos; m_cell := lat;
     m_periodic := m_periodic h |}.

(** Modelled from the spec: what [get_dispersion(param, grad=True)] of
    [dftd3.interface] returns, a dict with the keys energy, gradient and
    virial. *)
Record DispersionResult : Type := {
  res_energy : float;
  res_gradient : array2;
  res_virial : array2
}.

(** An entry of the [results] dict. *)
Inductive value : Type :=
| Scalar (x : float)
| Vector (v : array1)
| Matrix (m : array2).

(** ** The external collaborators *)

(** The dispersion engine behind [dftd3.interface], the unit constants of
    [ase.units] and [Atoms.get_volume]: none of them is defined in this file,
    they are parameters of everything below.  An engine operation answers
    [None] when it succeeds and [Some e] when it raises [e]. *)
Record Externals : Type := {
  Hartree : float;
  Bohr : float;
  engine_new : list Z -> array2 -> array2 -> list bool -> option exn;
  engine_update : DispersionModel -> array2 -> array2 -> option exn;
  engine_param : damping_class -> gmap string pyval -> option exn;
  engine_dispersion : DispersionModel -> DampingParam -> outcome DispersionResult;
  get_volume : Atoms -> outcome float
}.

(** A call that crossed the engine boundary, with its arguments and what it
    raised ([None]: it returned). *)
Inductive call : Type :=
| CallNew (nums : list Z) (pos lat : array2) (periodic : list bool) (r : option exn)
| CallUpdate (h : DispersionModel) (pos lat : array2) (r : option exn)
| CallParam (c : damping_class) (kw : gmap string pyval) (r : option exn)
| CallDispersion (h : DispersionModel) (p : DampingParam) (r : option exn).

Definition is_CallNew (c : call) : bool :=
  match c with CallNew _ _ _ _ _ => true | _ => false end.

(** ** The calculator object *)

(** The attributes of a [DFTD3] instance, and the log of engine calls. *)
Record DFTD3 : Type := {
  parameters : Parameters;
  atoms : option Atoms;
  results : gmap string value;
  _disp : option DispersionModel;
  calls : list call
}.

Definition set_parameters (p : Parameters) (s : DFTD3) : DFTD3 :=
  {| parameters := p; atoms := atoms s; results := results s;
     _disp := _disp s; calls := calls s |}.
Definition set_atoms (a : option Atoms) (s : DFTD3) : DFTD3 :=
  {| parameters := parameters s; atoms := a; results := results s;
     _disp := _disp s; calls := calls s |}.
Definition set_results (r : gmap string value) (s : DFTD3) : DFTD3 :=
  {| parameters := parameters s; atoms := atoms s; results := r;
     _disp := _disp s; calls := calls s |}.
Definition set_disp (d : option DispersionModel) (s : DFTD3) : DFTD3 :=
  {| parameters := parameters s; atoms := atoms s; results := results s;
     _disp := d; calls := calls s |}.
Definition log_call (c : call) (s : DFTD3) : DFTD3 :=
  {| parameters := parameters s; atoms := atoms s; results := results s;
     _disp := _disp s; calls := calls s ++ [c] |}.

(** A freshly constructed calculator with the given parameters. *)
Definition new_calculator (p : Parameters) : DFTD3 :=
  {| parameters := p; atoms := None; results := ∅; _disp := None; calls := [] |}.

(** ** Methods as state transformers that may raise *)

Definition M (A : Type) : Type := DFTD3 -> outcome A * DFTD3.

Definition ret {A} (a : A) : M A := fun s => (Return a, s).
Definition raise {A} (e : exn) : M A := fun s => (Raise e, s).
Definition bind {A B} (m : M A) (k : A -> M B) : M B :=
  fun s =>
    match m s with
    | (Return a, s') => k a s'
    | (Raise e, s') => (Raise e, s')
    end.
Definition get : M DFTD3 := fun s => (Return s, s).
Definition modify (f : DFTD3 -> DFTD3) : M unit := fun s => (Return tt, f s).

(** [try: body except RuntimeError: handler] *)
Definition try_except_RuntimeError {A} (body : M A) (handler : M A) : M A :=
  fun s =>
    match body s with
    | (Return a, s') => (Return a, s')
    | (Raise e, s') =>
        if isinstance_RuntimeError e then handler s' else (Raise e, s')
    end.

Declare Scope py_scope.
Delimit Scope py_scope with py.
Notation "x <- c1 ;; c2" := (bind c1 (fun x => c2))
  (at level 100, c1 at next level, right associativity) : py_scope.
Notation "c1 ;;; c2" := (bind c1 (fun _ => c2))
  (at level 100, right associativity) : py_scope.

(** [self.atoms], whose attributes are read next: [None] has none of them. *)
Definition self_atoms : M Atoms :=
  fun s =>
    match atoms s with
    | Some a => (Return a, s)
    | None => (Raise AttributeError, s)
    end.

(** ** Python lists of strings *)

(** [x in l] *)
Definition py_in (x : string) (l : list string) : bool := bool_decide (x ∈ l).

(** [l.remove(x)]: the first occurrence goes (the code calls it only when
    [x in l], so the [ValueError] of an absent [x] is never raised). *)
Fixpoint py_remove (x : string) (l : list string) : list string :=
  match l with
  | [] => []
  | y :: l' => if bool_decide (y = x) then l' else y :: py_remove x l'
  end.

(** Truth value of a list: it is not empty. *)
Definition truthy {A} (l : list A) : bool :=
  match l with
  | [] => false
  | _ :: _ => true
  end.

(** Truth value of a dict or [None]. *)
Definition truthy_dict (o : option (gmap string pyval)) : bool :=
  match o with
  | Some d => negb (bool_decide (d = ∅))
  | None => false
  end.

(** The local list [_reset] of [_check_api_calculator]: a copy of the
    changes from which one "positions" and one "cell" are removed. *)
Definition _reset (system_changes : list string) : list string :=
  let _reset := system_changes in
  let _reset := if py_in "positions" _reset then py_remove "positions" _reset else _reset in
  let _reset := if py_in "cell" _reset then py_remove "cell" _reset else _reset in
  _reset.

(** [ase.calculators.calculator.all_changes] *)
Definition all_changes : list string :=
  ["positions"; "numbers"; "cell"; "pbc"; "initial_charges"; "initial_magmoms"].

(** [a.flat[idx]]: the entries of the row-major flattening at the given
    indices, [IndexError] when one is out of range. *)
Definition flat (a : array2) : array1 := concat a.

Fixpoint py_take (l : array1) (idx : list nat) : outcome array1 :=
  match idx with
  | [] => Return []
  | i :: idx' =>
      match l !! i with
      | None => Raise IndexError
      | Some x =>
          match py_take l idx' with
          | Return r => Return (x :: r)
          | Raise e => Raise e
          end
      end
  end.

(** ** The table of damping parameter classes *)

Definition _damping_param : gmap string damping_class :=
  list_to_map
    [ ("d3bj", RationalDampingParam);
      ("d3zero", ZeroDampingParam);
      ("d3bjm", ModifiedRationalDampingParam);
      ("d3mbj", ModifiedRationalDampingParam);
      ("d3zerom", ModifiedZeroDampingParam);
      ("d3mzero", ModifiedZeroDampingParam);
      ("d3op", OptimizedPowerDampingParam) ].

(** Line 247: the keyword arguments of the damping parameter class are
    [params_tweaks] when that is true (a dict that is not empty), and
    [{"method": method}] otherwise. *)
Definition damping_kwargs (p : Parameters) : gmap string pyval :=
  if truthy_dict (params_tweaks p) then default ∅ (params_tweaks p)
  else {[ "method" := opt_str (method p) ]}.

(** Line 248: [_damping_param[damping]], a [KeyError] when it is [None]. *)
Definition damping_lookup (p : Parameters) : option damping_class :=
  damping p ≫= (fun name => _damping_param !! name).

(** ** Keyword arguments of [set] *)

Inductive keyword : Type :=
| kw_method (v : option string)
| kw_damping (v : option string)
| kw_params_tweaks (v : option (gmap string pyval))
| kw_cache_api (v : bool).

(** [self.parameters[key] = value] *)
Definition assign (k : keyword) (p : Parameters) : Parameters :=
  match k with
  | kw_method v =>
      {| method := v; damping := damping p;
         params_tweaks := params_tweaks p; cache_api := cache_api p |}
  | kw_damping v =>
      {| method := method p; damping := v;
         params_tweaks := params_tweaks p; cache_api := cache_api p |}
  | kw_params_tweaks v =>
      {| method := method p; damping := damping p;
         params_tweaks := v; cache_api := cache_api p |}
  | kw_cache_api v =>
      {| method := method p; damping := damping p;
         params_tweaks := params_tweaks p; cache_api := v |}
  end.

(** [not equal(value, self.parameters.get(key))] *)
Definition differs (k : keyword) (p : Parameters) : bool :=
  match k with
  | kw_method v => negb (bool_decide (v = method p))
  | kw_damping v => negb (bool_decide (v = damping p))
  | kw_params_tweaks v => negb (bool_decide (v = params_tweaks p))
  | kw_cache_api v => negb (bool_decide (v = cache_api p))
  end.

(** The loop of ASE's [Calculator.set] over the keyword arguments. *)
Fixpoint set_loop (kwargs : list keyword) (p : Parameters) (changed : list keyword)
  : Parameters * list keyword :=
  match kwargs with
  | [] => (p, changed)
  | k :: rest =>
      if differs k p then set_loop rest (assign k p) (changed ++ [k])
      else set_loop rest p changed
  end.

Section Calculator.

Variable ext : Externals.

Local Open Scope py_scope.

(** *** Calls into the engine *)

(** [DispersionModel(numbers, positions, cell, periodic)] *)
Definition DispersionModel_new (nums : list Z) (pos lat : array2) (periodic : list bool)
  : M DispersionModel :=
  fun s =>
    let r := engine_new ext nums pos lat periodic in
    let s' := log_call (CallNew nums pos lat periodic r) s in
    match r with
    | None =>
        (Return {| m_numbers := nums; m_positions := pos; m_cell := lat;
                   m_periodic := periodic |}, s')
    | Some e => (Raise e, s')
    end.

(** [self._disp.update(positions, cell)]: the object [self._disp] refers to
    is changed in place. *)
Definition disp_update (pos lat : array2) : M unit :=
  fun s =>
    match _disp s with
    | None => (Raise AttributeError, s)
    | Some h =>
        let r := engine_update ext h pos lat in
        let s' := log_call (CallUpdate h pos lat r) s in
        match r with
        | None => (Return tt, set_disp (Some (model_updated h pos lat)) s')
        | Some e => (Raise e, s')
        end
    end.

(** The call of a damping parameter class on keyword arguments. *)
Definition DampingParam_new (c : damping_class) (kwargs : gmap string pyval)
  : M DampingParam :=
  fun s =>
    let r := engine_param ext c kwargs in
    let s' := log_call (CallParam c kwargs r) s in
    match r with
    | None => (Return {| dp_class := c; dp_kwargs := kwargs |}, s')
    | Some e => (Raise e, s')
    end.

(** [self._disp.get_dispersion(param=_dpar, grad=True)] *)
Definition disp_get_dispersion (_dpar : DampingParam) : M DispersionResult :=
  fun s =>
    match _disp s with
    | None => (Raise AttributeError, s)
    | Some h =>
        match engine_dispersion ext h _dpar with
        | Return r => (Return r, log_call (CallDispersion h _dpar None) s)
        | Raise e => (Raise e, log_call (CallDispersion h _dpar (Some e)) s)
        end
    end.

(** *** The methods of ASE's base class that the adapter calls *)

(** [Calculator.reset]: [self.atoms = None; self.results = {}] *)
Definition Calculator_reset : M unit :=
  modify (fun s => set_results ∅ (set_atoms None s)).

(** [Calculator.calculate]: [if atoms is not None: self.atoms = atoms.copy()]
    (and the working directory is created, which no attribute records). *)
Definition Calculator_calculate (atoms : option Atoms) (properties system_changes : list string)
  : M unit :=
  match atoms with
  | Some a => modify (set_atoms (Some a))
  | None => ret tt
  end.

(** [Calculator.set]: every keyword whose value differs from the stored one
    is stored and reported. *)
Definition Calculator_set (kwargs : list keyword) : M (list keyword) :=
  fun s =>
    let '(p, changed) := set_loop kwargs (parameters s) [] in
    (Return changed, set_parameters p s).

(** [self.results[key] = v] *)
Definition results_store (key : string) (v : value) : M unit :=
  modify (fun s => set_results (<[key := v]> (results s)) s).

(** [self.results[key]] *)
Definition results_load (key : string) : M value :=
  fun s =>
    match results s !! key with
    | Some v => (Return v, s)
    | None => (Raise KeyError, s)
    end.

(** Lifting of a computation that touches no attribute. *)
Definition lift {A} (o : outcome A) : M A := fun s => (o, s).

(** *** The methods of [DFTD3] *)

Definition reset : M unit :=
  Calculator_reset ;;;
  s <- get ;;
  if negb (cache_api (parameters s)) then modify (set_disp None) else ret tt.

Definition set (kwargs : list keyword) : M (list keyword) :=
  changed_parameters <- Calculator_set kwargs ;;
  (if truthy changed_parameters then reset else ret tt) ;;;
  ret changed_parameters.

Definition _check_api_calculator (system_changes : list string) : M unit :=
  if truthy (_reset system_changes) then modify (set_disp None)
  else
    s <- get ;;
    if truthy system_changes && bool_decide (_disp s ≠ None) then
      try_except_RuntimeError
        (a <- self_atoms ;;
         let _cell := cell a in
         disp_update (array2_div (positions a) (Bohr ext)) (array2_div _cell (Bohr ext)))
        (modify (set_disp None))
    else ret tt.

Definition _create_api_calculator : M DispersionModel :=
  try_except_RuntimeError
    (a <- self_atoms ;;
     let _cell := cell a in
     let _periodic := pbc a in
     DispersionModel_new (numbers a) (array2_div (positions a) (Bohr ext))
       (array2_div _cell (Bohr ext)) _periodic)
    (raise InputError).

Definition _create_damping_param : M DampingParam :=
  try_except_RuntimeError
    (s <- get ;;
     let params_tweaks := damping_kwargs (parameters s) in
     match damping_lookup (parameters s) with
     | None => raise KeyError
     | Some cls => DampingParam_new cls params_tweaks
     end)
    (raise InputError).

Definition calculate (atoms : option Atoms) (properties system_changes : list string)
  : M unit :=
  let properties := if truthy properties then properties else ["energy"] in
  Calculator_calculate atoms properties system_changes ;;;
  _check_api_calculator system_changes ;;;
  s <- get ;;
  (if bool_decide (_disp s = None)
   then d <- _create_api_calculator ;; modify (set_disp (Some d))
   else ret tt) ;;;
  _dpar <- _create_damping_param ;;
  _res <- try_except_RuntimeError (disp_get_dispersion _dpar) (raise CalculationFailed) ;;
  results_store "energy" (Scalar (Float.mul (res_energy _res) (Hartree ext))) ;;;
  e <- results_load "energy" ;;
  results_store "free_energy" e ;;;
  results_store "forces"
    (Matrix (array2_div (array2_mul (array2_neg (res_gradient _res)) (Hartree ext))
               (Bohr ext))) ;;;
  a <- self_atoms ;;
  if pbc_any a then
    let scaled := array2_mul (res_virial _res) (Hartree ext) in
    vol <- lift (get_volume ext a) ;;
    let _stress := array2_div scaled vol in
    v <- lift (py_take (flat _stress) [0; 4; 8; 5; 2; 1]%nat) ;;
    results_store "stress" (Vector v)
  else ret tt.

End Calculator.

(** ** Names used in the statements *)

Section Vocabulary.

Variable ext : Externals.

Local Open Scope py_scope.

(** The geometry in the engine's length unit. *)
Definition positions_bohr (a : Atoms) : array2 := array2_div (positions a) (Bohr ext).
Definition cell_bohr (a : Atoms) : array2 := array2_div (cell a) (Bohr ext).

(** The model the constructor returns for a structure. *)
Definition model_of (a : Atoms) : DispersionModel :=
  {| m_numbers := numbers a; m_positions := positions_bohr a;
     m_cell := cell_bohr a; m_periodic := pbc a |}.

(** The constructor call for a structure, with the engine's answer. *)
Definition new_call (a : Atoms) : call :=
  CallNew (numbers a) (positions_bohr a) (cell_bohr a) (pbc a)
    (engine_new ext (numbers a) (positions_bohr a) (cell_bohr a) (pbc a)).

(** The update call of a model for a structure, with the engine's answer. *)
Definition update_call (h : DispersionModel) (a : Atoms) : call :=
  CallUpdate h (positions_bohr a) (cell_bohr a)
    (engine_update ext h (positions_bohr a) (cell_bohr a)).

(** Lines 269 and 270 of [calculate]: a missing model is built. *)
Definition ensure_model : M unit :=
  s <- get ;;
  if bool_decide (_disp s = None)
  then d <- _create_api_calculator ext ;; modify (set_disp (Some d))
  else ret tt.

(** Lines 280 to 286 of [calculate]: the results are stored. *)
Definition store_results (_res : DispersionResult) : M unit :=
  results_store "energy" (Scalar (Float.mul (res_energy _res) (Hartree ext))) ;;;
  e <- results_load "energy" ;;
  results_store "free_energy" e ;;;
  results_store "forces"
    (Matrix (array2_div (array2_mul (array2_neg (res_gradient _res)) (Hartree ext))
               (Bohr ext))) ;;;
  a <- self_atoms ;;
  if pbc_any a then
    let scaled := array2_mul (res_virial _res) (Hartree ext) in
    vol <- lift (get_volume ext a) ;;
    let _stress := array2_div scaled vol in
    v <- lift (py_take (flat _stress) [0; 4; 8; 5; 2; 1]%nat) ;;
    results_store "stress" (Vector v)
  else ret tt.

(** Lines 272 to 286 of [calculate]. *)
Definition evaluate : M unit :=
  _dpar <- _create_damping_param ext ;;
  _res <- try_except_RuntimeError (disp_get_dispersion ext _dpar) (raise CalculationFailed) ;;
  store_results _res.

(** The results after lines 280 to 282. *)
Definition stored (res : DispersionResult) (s : DFTD3) : DFTD3 :=
  let energy := Scalar (Float.mul (res_energy res) (Hartree ext)) in
  set_results
    (<["forces" := Matrix (array2_div (array2_mul (array2_neg (res_gradient res))
                                         (Hartree ext)) (Bohr ext))]>
       (<["free_energy" := energy]> (<["energy" := energy]> (results s)))) s.

(** The stress before its reordering: lines 285. *)
Definition stress_matrix (res : DispersionResult) (vol : float) : array2 :=
  array2_div (array2_mul (res_virial res) (Hartree ext)) vol.

(** The conversion of an entry of the virial: energy per volume. *)
Definition to_stress (vol : float) (v : float) : float :=
  Float.div (Float.mul v (Hartree ext)) vol.

End Vocabulary.

(** A call that is no evaluation. *)
Definition quiet (c : call) : Prop :=
  match c with
  | CallDispersion _ _ _ => False
  | _ => True
  end.

(** What a stage before the evaluation may change: it leaves the parameters
    and the results alone, and the calls it adds to the log are no
    evaluations. *)
Definition prepared (s s' : DFTD3) : Prop :=
  parameters s' = parameters s ∧ results s' = results s
  ∧ ∃ l, calls s' = calls s ++ l ∧ Forall quiet l.

(** The keys of the table. *)
Definition known_damping_names : list string :=
  ["d3bj"; "d3zero"; "d3bjm"; "d3mbj"; "d3zerom"; "d3mzero"; "d3op"].

(** The calculator with another [method]. *)
Definition with_method (m : option string) (s : DFTD3) : DFTD3 :=
  set_parameters (assign (kw_method m) (parameters s)) s.

(** The calculator with another [damping] name. *)
Definition with_damping (d : option string) (s : DFTD3) : DFTD3 :=
  set_parameters (assign (kw_damping d) (parameters s)) s.

(** The structure a calculation works on: the one it is given, or else the
    one the calculator holds. *)
Definition current_atoms (arg : option Atoms) (s : DFTD3) : option Atoms :=
  match arg with
  | Some a => Some a
  | None => atoms s
  end.

(** The kinds of engine calls. *)
Definition is_CallUpdate (c : call) : bool :=
  match c with CallUpdate _ _ _ _ => true | _ => false end.
Definition is_CallParam (c : call) : bool :=
  match c with CallParam _ _ _ => true | _ => false end.
Definition is_CallDispersion (c : call) : bool :=
  match c with CallDispersion _ _ _ => true | _ => false end.

(** What a call raised, as the log records it. *)
Definition raised {A} (o : outcome A) : option exn :=
  match o with
  | Return _ => None
  | Raise e => Some e
  end.


Section Coherence.

Variable ext : Externals.

(** A change list is truthful for a cached model and a structure when the
    model agrees with the structure on every input the list does not name. *)
Definition agrees (h : DispersionModel) (a : Atoms) (changes : list string) : Prop :=
  ("numbers" ∉ changes -> m_numbers h = numbers a)
  ∧ ("pbc" ∉ changes -> m_periodic h = pbc a)
  ∧ ("positions" ∉ changes -> m_positions h = positions_bohr ext a)
  ∧ ("cell" ∉ changes -> m_cell h = cell_bohr ext a).

End Coherence.

(** ** Sample surroundings

    A concrete engine and concrete structures, on which the statements
    below are evaluated. *)

Module Sample.

(** The values of [ase.units] (CODATA 2014) as binary64 numbers. *)
Definition Hartree_2014 : float := S754_finite false 7659324247473440 (-48).
Definition Bohr_2014 : float := S754_finite false 4766404576616547 (-53).

Definition z (n : Z) : float := Float.of_Z n.

Definition answer : DispersionResult :=
  {| res_energy := z (-1);
     res_gradient := [[z 1; z (-2); z 3]];
     res_virial := [[z 1; z 2; z 3]; [z 4; z 5; z 6]; [z 7; z 8; z 9]] |}.

(** An engine that accepts everything. *)
Definition engine : Externals :=
  {| Hartree := Hartree_2014;
     Bohr := Bohr_2014;
     engine_new := fun _ _ _ _ => None;
     engine_update := fun _ _ _ => None;
     engine_param := fun _ _ => None;
     engine_dispersion := fun _ _ => Return answer;
     get_volume := fun _ => Return (z 8) |}.

(** The same engine, refusing every geometry update. *)
Definition engine_bad_update : Externals :=
  {| Hartree := Hartree_2014;
     Bohr := Bohr_2014;
     engine_new := fun _ _ _ _ => None;
     engine_update := fun _ _ _ => Some RuntimeError;
     engine_param := fun _ _ => None;
     engine_dispersion := fun _ _ => Return answer;
     get_volume := fun _ => Return (z 8) |}.

(** The same engine, failing every evaluation. *)
Definition engine_bad_dispersion : Externals :=
  {| Hartree := Hartree_2014;
     Bohr := Bohr_2014;
     engine_new := fun _ _ _ _ => None;
     engine_update := fun _ _ _ => None;
     engine_param := fun _ _ => None;
     engine_dispersion := fun _ _ => Raise RuntimeError;
     get_volume := fun _ => Return (z 8) |}.

(** One atom in a cubic box, periodic in all directions, and the same atom
    with no periodic direction. *)
Definition crystal : Atoms :=
  {| numbers := [1%Z];
     positions := [[z 0; z 0; z 0]];
     cell := [[z 2; z 0; z 0]; [z 0; z 2; z 0]; [z 0; z 0; z 2]];
     pbc := [true; true; true] |}.

Definition molecule : Atoms :=
  {| numbers := [1%Z];
     positions := [[z 0; z 0; z 0]];
     cell := [[z 0; z 0; z 0]; [z 0; z 0; z 0]; [z 0; z 0; z 0]];
     pbc := [false; false; false] |}.

Definition pbe_d3bj (cache : bool) : Parameters :=
  {| method := Some "pbe"; damping := Some "d3bj"; params_tweaks := Some ∅;
     cache_api := cache |}.

(** A model as the engine holds it for [crystal]. *)
Definition crystal_model : DispersionModel :=
  {| m_numbers := numbers crystal;
     m_positions := array2_div (positions crystal) Bohr_2014;
     m_cell := array2_div (cell crystal) Bohr_2014;
     m_periodic := pbc crystal |}.

(** A calculator that holds a structure and a cached model. *)
Definition warm (cache : bool) : DFTD3 :=
  {| parameters := pbe_d3bj cache; atoms := Some crystal; results := ∅;
     _disp := Some crystal_model; calls := [] |}.

End Sample.

(** The sample runs. *)
Module Runs.

Import Sample.

(** A calculator that has computed nothing yet. *)
Definition cold (cache : bool) : DFTD3 := new_calculator (pbe_d3bj cache).

(** The first calculation, on the crystal. *)
Definition first (cache : bool) : outcome unit * DFTD3 :=
  calculate engine (Some crystal) [] all_changes (cold cache).

(** A second calculation on the same calculator after the atom has moved. *)
Definition moved (cache : bool) : outcome unit * DFTD3 :=
  calculate engine (Some crystal) [] ["positions"] (first cache).2.

(** A second calculation on the same calculator, now on the molecule. *)
Definition second : outcome unit * DFTD3 :=
  calculate engine (Some molecule) [] all_changes (first true).2.

(** The first calculation of another calculator, on the molecule. *)
Definition alone : outcome unit * DFTD3 :=
  calculate engine (Some molecule) [] all_changes (cold true).

(** The number of constructor calls in a log. *)
Definition built (l : list call) : nat := length (List.filter is_CallNew l).

(** A calculator whose damping name is no key of the table. *)
Definition misnamed : DFTD3 :=
  new_calculator
    {| method := Some "pbe"; damping := Some "bj"; params_tweaks := Some ∅;
       cache_api := true |}.

(** A calculator with explicit damping parameters and a method. *)
Definition tweaks : gmap string pyval :=
  <["s8" := PyFloat (z 1)]> (<["a1" := PyFloat (z 0)]> (<["a2" := PyFloat (z 5)]> ∅)).

Definition tweaked : DFTD3 :=
  new_calculator
    {| method := Some "pbe"; damping := Some "d3bj"; params_tweaks := Some tweaks;
       cache_api := true |}.

(** The parameter object of the sample runs. *)
Definition pbe_param : DampingParam :=
  {| dp_class := RationalDampingParam; dp_kwargs := {[ "method" := PyStr "pbe" ]} |}.

End Runs.

(** Engines with other faults, and an engine whose answer has no gradient. *)
Module Faults.

Import Sample.

(** The update raises an exception that is no [RuntimeError]. *)
Definition engine_update_type_error : Externals :=
  {| Hartree := Hartree_2014;
     Bohr := Bohr_2014;
     engine_new := fun _ _ _ _ => None;
     engine_update := fun _ _ _ => Some TypeError;
     engine_param := fun _ _ => None;
     engine_dispersion := fun _ _ => Return answer;
     get_volume := fun _ => Return (z 8) |}.

(** The constructor refuses every structure. *)
Definition engine_refusing : Externals :=
  {| Hartree := Hartree_2014;
     Bohr := Bohr_2014;
     engine_new := fun _ _ _ _ => Some RuntimeError;
     engine_update := fun _ _ _ => None;
     engine_param := fun _ _ => None;
     engine_dispersion := fun _ _ => Return answer;
     get_volume := fun _ => Return (z 8) |}.

(** The structure has no volume. *)
Definition engine_no_volume : Externals :=
  {| Hartree := Hartree_2014;
     Bohr := Bohr_2014;
     engine_new := fun _ _ _ _ => None;
     engine_update := fun _ _ _ => None;
     engine_param := fun _ _ => None;
     engine_dispersion := fun _ _ => Return answer;
     get_volume := fun _ => Raise ValueError |}.

(** The answer of an atom at rest: no gradient. *)
Definition at_rest : DispersionResult :=
  {| res_energy := z (-1);
     res_gradient := [[S754_zero false; S754_zero false; S754_zero false]];
     res_virial := [[z 1; z 2; z 3]; [z 4; z 5; z 6]; [z 7; z 8; z 9]] |}.

Definition engine_at_rest : Externals :=
  {| Hartree := Hartree_2014;
     Bohr := Bohr_2014;
     engine_new := fun _ _ _ _ => None;
     engine_update := fun _ _ _ => None;
     engine_param := fun _ _ => None;
     engine_dispersion := fun _ _ => Return at_rest;
     get_volume := fun _ => Return (z 8) |}.

(** The runs on these engines. *)
Definition no_volume : outcome unit * DFTD3 :=
  calculate engine_no_volume (Some crystal) [] all_changes (Runs.cold true).

Definition rest : outcome unit * DFTD3 :=
  calculate engine_at_rest (Some crystal) [] all_changes (Runs.cold true).

(** A calculation on the calculator that holds the model of the crystal,
    after a move of the atom that the change list reports. *)
Definition reported : outcome unit * DFTD3 :=
  calculate engine (Some crystal) [] ["positions"] (warm true).

End Faults.

(** ** Properties of the list operations *)

Lemma py_remove_other (x y : string) (l : list string) :
  x ∈ l -> x ≠ y -> x ∈ py_remove y l.
Proof.
  induction l as [|a l IH]; simpl; intros Hin Hne.
  - exact Hin.
  - case_bool_decide as Ha.
    + subst a. apply elem_of_cons in Hin as [->|Hin]; [congruence | exact Hin].
    + apply elem_of_cons in Hin as [->|Hin].
      * apply elem_of_cons; by left.
      * apply elem_of_cons; right; by apply IH.
Qed.

Lemma _reset_other (x : string) (l : list string) :
  x ∈ l -> x ≠ "positions" -> x ≠ "cell" -> x ∈ _reset l.
Proof.
  intros Hin Hp Hc. unfold _reset.
  assert (H1 : x ∈ (if py_in "positions" l then py_remove "positions" l else l)).
  { destruct (py_in "positions" l); [by apply py_remove_other | exact Hin]. }
  destruct (py_in "cell" _); [by apply py_remove_other | exact H1].
Qed.

Lemma truthy_elem {A} (x : A) (l : list A) : x ∈ l -> truthy l = true.
Proof. destruct l; [by intros ?%elem_of_nil | reflexivity]. Qed.

(** The four change lists that an in-place update answers. *)
Lemma only_geometry_cases (l : list string) :
  NoDup l -> (∀ x, x ∈ l -> x = "positions" ∨ x = "cell") ->
  l = [] ∨ l = ["positions"] ∨ l = ["cell"]
  ∨ l = ["positions"; "cell"] ∨ l = ["cell"; "positions"].
Proof.
  intros Hnd Hall.
  destruct l as [|a [|b [|c l]]].
  - by left.
  - destruct (Hall a) as [->| ->]; [by left | |]; auto.
  - apply NoDup_cons in Hnd as [Hab _].
    destruct (Hall a) as [->| ->]; [by left | |];
      (destruct (Hall b) as [->| ->]; [by right; left | |]);
      auto 6; exfalso; apply Hab; by left.
  - apply NoDup_cons in Hnd as [Ha Hnd].
    apply NoDup_cons in Hnd as [Hb _].
    exfalso.
    destruct (Hall a) as [->| ->]; [by left | |];
      (destruct (Hall b) as [->| ->]; [by right; left | |]);
      (destruct (Hall c) as [->| ->]; [by right; right; left | |]);
      solve [ apply Ha; by left | apply Ha; by right; left | apply Hb; by left ].
Qed.

Lemma _reset_only_geometry (l : list string) :
  NoDup l -> (∀ x, x ∈ l -> x = "positions" ∨ x = "cell") -> _reset l = [].
Proof.
  intros Hnd Hall.
  destruct (only_geometry_cases l Hnd Hall) as [->|[->|[->|[->| ->]]]];
    reflexivity.
Qed.

(** ** The model cache: [_check_api_calculator] *)

Section CheckApiCalculator.

Variable ext : Externals.

Lemma check_discards (changes : list string) (s : DFTD3) :
  truthy (_reset changes) = true ->
  _check_api_calculator ext changes s = (Return tt, set_disp None s).
Proof. intros H. unfold _check_api_calculator. by rewrite H. Qed.

Lemma check_nothing_to_do (changes : list string) (s : DFTD3) :
  _reset changes = [] -> changes = [] ∨ _disp s = None ->
  _check_api_calculator ext changes s = (Return tt, s).
Proof.
  intros Hr Hcase. unfold _check_api_calculator. rewrite Hr. simpl.
  unfold bind, get.
  destruct Hcase as [->|Hd]; simpl; [reflexivity|].
  rewrite Hd. rewrite bool_decide_eq_false_2 by (intros H; by apply H).
  by rewrite andb_false_r.
Qed.

(** The update is attempted: what the method does is decided by the
    engine's answer. *)
Lemma check_updates (changes : list string) (s : DFTD3) (a : Atoms) (h : DispersionModel) :
  truthy changes = true -> _reset changes = [] ->
  atoms s = Some a -> _disp s = Some h ->
  _check_api_calculator ext changes s =
    let r := engine_update ext h (positions_bohr ext a) (cell_bohr ext a) in
    let s' := log_call (CallUpdate h (positions_bohr ext a) (cell_bohr ext a) r) s in
    match r with
    | None => (Return tt, set_disp (Some (model_updated h (positions_bohr ext a) (cell_bohr ext a))) s')
    | Some e => if isinstance_RuntimeError e then (Return tt, set_disp None s')
                else (Raise e, s')
    end.
Proof.
  intros Hc Hr Ha Hd. unfold _check_api_calculator. rewrite Hr. simpl.
  unfold bind at 1. unfold get. rewrite Hc, Hd. simpl.
  unfold try_except_RuntimeError, bind, self_atoms, disp_update.
  rewrite Ha, Hd. fold (positions_bohr ext a) (cell_bohr ext a).
  destruct (engine_update ext h (positions_bohr ext a) (cell_bohr ext a)) as [e|]; simpl.
  - destruct (isinstance_RuntimeError e); reflexivity.
  - reflexivity.
Qed.

(** Without a structure attached the update is not reached. *)
Lemma check_without_atoms (changes : list string) (s : DFTD3) (h : DispersionModel) :
  truthy changes = true -> _reset changes = [] ->
  atoms s = None -> _disp s = Some h ->
  _check_api_calculator ext changes s = (Raise AttributeError, s).
Proof.
  intros Hc Hr Ha Hd. unfold _check_api_calculator. rewrite Hr. simpl.
  unfold bind at 1. unfold get. rewrite Hc, Hd. simpl.
  unfold try_except_RuntimeError, bind, self_atoms. by rewrite Ha.
Qed.

End CheckApiCalculator.

(** ** The stages of [calculate] *)

Lemma prepared_refl (s : DFTD3) : prepared s s.
Proof.
  repeat split; exists []; split; [by rewrite app_nil_r | constructor].
Qed.

Lemma prepared_trans (s1 s2 s3 : DFTD3) :
  prepared s1 s2 -> prepared s2 s3 -> prepared s1 s3.
Proof.
  intros (Hp & Hr & l & Hl & Hq) (Hp' & Hr' & l' & Hl' & Hq').
  repeat split; [congruence | congruence |].
  exists (l ++ l'). split.
  - by rewrite Hl', Hl, app_assoc.
  - by apply Forall_app.
Qed.

Lemma prepared_log (c : call) (s : DFTD3) : quiet c -> prepared s (log_call c s).
Proof.
  intros Hc. repeat split. exists [c]. split; [reflexivity | by repeat constructor].
Qed.

Lemma prepared_set_disp (d : option DispersionModel) (s : DFTD3) :
  prepared s (set_disp d s).
Proof.
  repeat split; exists []; split; [simpl; by rewrite app_nil_r | constructor].
Qed.

Lemma prepared_log_set_disp (c : call) (d : option DispersionModel) (s : DFTD3) :
  quiet c -> prepared s (set_disp d (log_call c s)).
Proof.
  intros Hc. eapply prepared_trans; [by apply prepared_log | apply prepared_set_disp].
Qed.

Lemma prepared_set_atoms (a : option Atoms) (s : DFTD3) :
  prepared s (set_atoms a s).
Proof.
  repeat split; exists []; split; [simpl; by rewrite app_nil_r | constructor].
Qed.

Section Stages.

Variable ext : Externals.

Local Open Scope py_scope.

Lemma _create_damping_param_eq (s : DFTD3) :
  _create_damping_param ext s =
    match damping_lookup (parameters s) with
    | None => (Raise KeyError, s)
    | Some cls =>
        let kw := damping_kwargs (parameters s) in
        let r := engine_param ext cls kw in
        let s' := log_call (CallParam cls kw r) s in
        match r with
        | None => (Return {| dp_class := cls; dp_kwargs := kw |}, s')
        | Some e => (Raise (if isinstance_RuntimeError e then InputError else e), s')
        end
    end.
Proof.
  unfold _create_damping_param, try_except_RuntimeError, bind, get.
  destruct (damping_lookup (parameters s)) as [cls|]; [|reflexivity].
  unfold DampingParam_new.
  destruct (engine_param ext cls _) as [e|]; simpl; [|reflexivity].
  by destruct (isinstance_RuntimeError e).
Qed.

Lemma _create_api_calculator_eq (s : DFTD3) :
  _create_api_calculator ext s =
    match atoms s with
    | None => (Raise AttributeError, s)
    | Some a =>
        let r := engine_new ext (numbers a) (positions_bohr ext a) (cell_bohr ext a) (pbc a) in
        let s' := log_call (CallNew (numbers a) (positions_bohr ext a) (cell_bohr ext a)
                              (pbc a) r) s in
        match r with
        | None =>
            (Return {| m_numbers := numbers a; m_positions := positions_bohr ext a;
                       m_cell := cell_bohr ext a; m_periodic := pbc a |}, s')
        | Some e => (Raise (if isinstance_RuntimeError e then InputError else e), s')
        end
    end.
Proof.
  unfold _create_api_calculator, try_except_RuntimeError, bind, self_atoms.
  destruct (atoms s) as [a|]; [|reflexivity].
  unfold DispersionModel_new. fold (positions_bohr ext a) (cell_bohr ext a).
  destruct (engine_new ext _ _ _ _) as [e|]; simpl; [|reflexivity].
  by destruct (isinstance_RuntimeError e).
Qed.

Lemma calculate_stages (a : option Atoms) (props changes : list string) (s : DFTD3) :
  calculate ext a props changes s =
    (Calculator_calculate a (if truthy props then props else ["energy"]) changes ;;;
     _check_api_calculator ext changes ;;;
     ensure_model ext ;;;
     evaluate ext) s.
Proof. reflexivity. Qed.

End Stages.

(** ** How a run of [calculate] proceeds *)

Create HintDb run.

Section Run.

Variable ext : Externals.

#[local] Hint Resolve prepared_refl prepared_log prepared_set_disp prepared_set_atoms : run.

Lemma check_frame (changes : list string) (s s' : DFTD3) (out : outcome unit) :
  _check_api_calculator ext changes s = (out, s') ->
  prepared s s' ∧ atoms s' = atoms s.
Proof.
  unfold _check_api_calculator.
  destruct (truthy (_reset changes)).
  { intros [= <- <-]. auto with run. }
  unfold bind at 1. unfold get.
  destruct (truthy changes && bool_decide (_disp s ≠ None)).
  2:{ intros [= <- <-]. auto with run. }
  unfold try_except_RuntimeError, bind, self_atoms, disp_update.
  destruct (atoms s) as [a|] eqn:Ha.
  2:{ intros [= <- <-]. auto with run. }
  destruct (_disp s) as [h|].
  2:{ intros [= <- <-]. auto with run. }
  destruct (engine_update ext h _ _) as [e|]; [destruct (isinstance_RuntimeError e)|];
    intros [= <- <-]; simpl; (split; [|done]);
    solve [ apply prepared_log_set_disp; exact I | apply prepared_log; exact I ].
Qed.

Lemma ensure_model_frame (s s' : DFTD3) (out : outcome unit) :
  ensure_model ext s = (out, s') ->
  prepared s s' ∧ atoms s' = atoms s
  ∧ (out = Return tt -> ∃ h, _disp s' = Some h).
Proof.
  unfold ensure_model, bind at 1. unfold get.
  case_bool_decide as Hd.
  - unfold bind. rewrite _create_api_calculator_eq.
    destruct (atoms s) as [a|] eqn:Ha.
    2:{ intros [= <- <-]. split; [|split]; [auto with run | done | discriminate]. }
    destruct (engine_new ext _ _ _ _) as [e|]; intros [= <- <-]; simpl.
    + split; [|split]; [apply prepared_log; exact I | done | discriminate].
    + split; [|split]; [apply prepared_log_set_disp; exact I | done | eauto].
  - intros [= <- <-]. split; [|split]; [auto with run | done |].
    intros _. destruct (_disp s) as [h|]; [eauto | done].
Qed.

Lemma _create_damping_param_frame (s s' : DFTD3) (out : outcome DampingParam) :
  _create_damping_param ext s = (out, s') ->
  prepared s s' ∧ atoms s' = atoms s ∧ _disp s' = _disp s.
Proof.
  rewrite _create_damping_param_eq.
  destruct (damping_lookup (parameters s)) as [cls|].
  2:{ intros [= <- <-]. auto with run. }
  simpl. destruct (engine_param ext cls _) as [e|]; intros [= <- <-]; simpl;
    (split; [|split]; [apply prepared_log; exact I | done | done]).
Qed.

(** A run either raises before the evaluation, having stored ext nothing, or
    reaches [get_dispersion] on the model [h] that [self._disp] then holds;
    what follows is decided by the engine's answer. *)
Lemma calculate_run (a : option Atoms) (props changes : list string) (s : DFTD3) :
  ∃ s1, prepared s s1
    ∧ atoms s1 = match a with Some x => Some x | None => atoms s end
    ∧ ((∃ e, calculate ext a props changes s = (Raise e, s1))
       ∨ (∃ h dp, _disp s1 = Some h
            ∧ calculate ext a props changes s =
                match engine_dispersion ext h dp with
                | Raise e =>
                    (Raise (if isinstance_RuntimeError e then CalculationFailed else e),
                     log_call (CallDispersion h dp (Some e)) s1)
                | Return res =>
                    store_results ext res (log_call (CallDispersion h dp None) s1)
                end)).
Proof.
  remember (calculate ext a props changes s) as run eqn:Hrun.
  rewrite calculate_stages in Hrun.
  set (s0 := match a with Some x => set_atoms (Some x) s | None => s end).
  assert (H0 : prepared s s0 ∧ atoms s0 = match a with Some x => Some x | None => atoms s end).
  { subst s0. destruct a; auto with run. }
  destruct H0 as [P0 A0].
  assert (Hbase : ∀ k : unit -> M unit,
             bind (Calculator_calculate a (if truthy props then props else ["energy"]) changes) k s
             = k tt s0).
  { intros k. subst s0. by destruct a. }
  rewrite Hbase in Hrun. unfold bind at 1 in Hrun.
  destruct (_check_api_calculator ext changes s0) as [[[]|e] sc] eqn:Hc;
    apply check_frame in Hc as [Pc Ac].
  2:{ exists sc. split; [by eapply prepared_trans|]. split; [congruence|]. left; eauto. }
  unfold bind at 1 in Hrun.
  destruct (ensure_model ext sc) as [[[]|e] sm] eqn:Hm;
    apply ensure_model_frame in Hm as (Pm & Am & Dm).
  2:{ exists sm. split; [eauto using prepared_trans|]. split; [congruence|]. left; eauto. }
  destruct Dm as [h Dm]; [done|].
  unfold evaluate, bind at 1 in Hrun.
  destruct (_create_damping_param ext sm) as [[dp|e] sp] eqn:Hp;
    apply _create_damping_param_frame in Hp as (Pp & Ap & Dp).
  2:{ exists sp. split; [eauto using prepared_trans|]. split; [congruence|]. left; eauto. }
  exists sp. split; [eauto using prepared_trans|]. split; [congruence|].
  right. exists h, dp. split; [congruence|].
  rewrite Hrun.
  unfold bind, try_except_RuntimeError, disp_get_dispersion.
  rewrite Dp, Dm.
  destruct (engine_dispersion ext h dp) as [res|e]; [reflexivity|].
  by destruct (isinstance_RuntimeError e).
Qed.

End Run.

(** ** Signs in binary64 arithmetic

    Rounding to nearest even is symmetric, so a sign moves through a
    product and a quotient without changing any digit. *)

Section Signs.

Lemma binary_round_aux_negb (s : bool) (m e : Z) (l : location) :
  binary_round_aux Float.prec Float.emax (negb s) m e l
  = SFopp (binary_round_aux Float.prec Float.emax s m e l).
Proof.
  unfold binary_round_aux.
  destruct (shr_fexp Float.prec Float.emax m e l) as [mrs e1].
  destruct (shr_fexp Float.prec Float.emax _ e1 loc_Exact) as [mrs' e2].
  destruct (shr_m mrs'); [reflexivity | | reflexivity].
  by destruct (Z.leb e2 _).
Qed.

Lemma mul_opp_l (x y : float) :
  Float.mul (Float.opp x) y = Float.opp (Float.mul x y).
Proof.
  unfold Float.mul, Float.opp.
  destruct x as [sx|sx| |sx mx ex], y as [sy|sy| |sy my ey]; simpl;
    try reflexivity; try (by destruct sx, sy).
  replace (xorb (negb sx) sy) with (negb (xorb sx sy)) by (by destruct sx, sy).
  apply binary_round_aux_negb.
Qed.

Lemma div_opp_l (x y : float) :
  Float.div (Float.opp x) y = Float.opp (Float.div x y).
Proof.
  unfold Float.div, Float.opp.
  destruct x as [sx|sx| |sx mx ex], y as [sy|sy| |sy my ey]; simpl;
    try reflexivity; try (by destruct sx, sy).
  destruct (SFdiv_core_binary Float.prec Float.emax (Z.pos mx) ex (Z.pos my) ey)
    as [[mz ez] lz].
  replace (xorb (negb sx) sy) with (negb (xorb sx sy)) by (by destruct sx, sy).
  apply binary_round_aux_negb.
Qed.

(** The force expression of line 282, read as the negated conversion. *)
Lemma forces_negated (g : array2) (hartree bohr : float) :
  array2_div (array2_mul (array2_neg g) hartree) bohr
  = array2_neg (array2_div (array2_mul g hartree) bohr).
Proof.
  unfold array2_div, array2_mul, array2_neg.
  rewrite !map_map. apply map_ext. intros row.
  rewrite !map_map. apply map_ext. intros v.
  by rewrite mul_opp_l, div_opp_l.
Qed.

End Signs.

(** ** What a run stores *)

Section Results.

Variable ext : Externals.

Lemma store_results_eq (res : DispersionResult) (s : DFTD3) :
  store_results ext res s =
    match atoms s with
    | None => (Raise AttributeError, stored ext res s)
    | Some a =>
        if pbc_any a then
          match get_volume ext a with
          | Raise e => (Raise e, stored ext res s)
          | Return vol =>
              match py_take (flat (stress_matrix ext res vol)) [0; 4; 8; 5; 2; 1]%nat with
              | Raise e => (Raise e, stored ext res s)
              | Return v =>
                  (Return tt,
                   set_results (<["stress" := Vector v]> (results (stored ext res s)))
                     (stored ext res s))
              end
          end
        else (Return tt, stored ext res s)
    end.
Proof.
  unfold store_results, bind, results_store, results_load, modify, self_atoms, lift.
  cbn [results set_results atoms].
  rewrite lookup_insert_eq. cbn [results set_results atoms].
  destruct (atoms s) as [a|]; [|reflexivity].
  destruct (pbc_any a); [|reflexivity].
  destruct (get_volume ext a) as [vol|e]; [|reflexivity].
  fold (stress_matrix ext res vol).
  destruct (py_take _ _) as [v|e]; reflexivity.
Qed.

(** A successful run, taken apart: the state [s1] in which the engine was
    asked, the model and the parameter object it was asked with, its answer,
    and the structure. *)
Lemma calculate_success (arg : option Atoms) (props changes : list string) (s s' : DFTD3) :
  calculate ext arg props changes s = (Return tt, s') ->
  ∃ s1 h dp res a,
    prepared s s1
    ∧ engine_dispersion ext h dp = Return res
    ∧ calls s' = calls s1 ++ [CallDispersion h dp None]
    ∧ atoms s' = Some a
    ∧ atoms s1 = Some a
    ∧ _disp s' = Some h
    ∧ parameters s' = parameters s
    ∧ (if pbc_any a
       then ∃ vol v, get_volume ext a = Return vol
              ∧ py_take (flat (stress_matrix ext res vol)) [0; 4; 8; 5; 2; 1]%nat = Return v
              ∧ results s' = <["stress" := Vector v]> (results (stored ext res s1))
       else results s' = results (stored ext res s1)).
Proof.
  intros Hrun.
  destruct (calculate_run ext arg props changes s) as (s1 & P1 & A1 & [[e He]|(h & dp & D1 & He)]).
  { rewrite He in Hrun. discriminate. }
  rewrite He in Hrun. clear He.
  destruct (engine_dispersion ext h dp) as [res|e] eqn:Hres; [|discriminate].
  rewrite store_results_eq in Hrun. cbn [atoms log_call] in Hrun.
  destruct (atoms s1) as [a|] eqn:Ha; [|discriminate].
  exists s1, h, dp, res, a.
  assert (Hp : parameters s1 = parameters s) by apply P1.
  destruct (pbc_any a).
  - destruct (get_volume ext a) as [vol|e]; [|discriminate].
    destruct (py_take _ _) as [v|e] eqn:Hv; [|discriminate].
    injection Hrun as <-. cbn.
    repeat (split; [done|]). eauto.
  - injection Hrun as <-. cbn. repeat (split; [done|]). done.
Qed.

End Results.

(** ** The damping parameter factory: [_create_damping_param] *)

Lemma damping_table_known (name : string) :
  name ∈ known_damping_names -> is_Some (_damping_param !! name).
Proof.
  unfold known_damping_names. intros H.
  repeat (apply elem_of_cons in H as [->|H]; [by eexists|]).
  by apply elem_of_nil in H.
Qed.

Lemma damping_table_unknown (name : string) :
  name ∉ known_damping_names -> _damping_param !! name = None.
Proof.
  unfold known_damping_names, _damping_param. intros H. simpl.
  repeat (apply not_elem_of_cons in H as [? H]).
  repeat (rewrite lookup_insert_ne by done).
  apply lookup_empty.
Qed.

Section DampingParameters.

Variable ext : Externals.

(** C1, evaluated on the code: for every calculator whose damping name is
    none of the seven keys of the table (the default [None] included), the
    factory raises [KeyError], the error of the failed table lookup, and not
    [InputError]; nothing else happens, the engine is not called. *)
Theorem create_damping_param_unknown_name (s : DFTD3) :
  (∀ name, damping (parameters s) = Some name -> name ∉ known_damping_names) ->
  _create_damping_param ext s = (Raise KeyError, s).
Proof.
  intros Hunknown. rewrite _create_damping_param_eq.
  unfold damping_lookup.
  destruct (damping (parameters s)) as [name|]; simpl; [|reflexivity].
  by rewrite damping_table_unknown by auto.
Qed.

(** C6: when [params_tweaks] is a dict that is not empty, the class that
    [damping] selects is called with exactly that dict, and neither the
    outcome nor the call depends on [method]; when [params_tweaks] is empty
    (or [None]), the class is called with the one keyword [method]. *)
Theorem params_tweaks_precede_method (s : DFTD3) (cls : damping_class) :
  damping_lookup (parameters s) = Some cls ->
  (∀ d, params_tweaks (parameters s) = Some d -> d ≠ ∅ ->
     calls (_create_damping_param ext s).2
       = calls s ++ [CallParam cls d (engine_param ext cls d)]
     ∧ (∀ p, (_create_damping_param ext s).1 = Return p -> dp_kwargs p = d)
     ∧ ∀ m, (_create_damping_param ext (with_method m s)).1
              = (_create_damping_param ext s).1
            ∧ calls (_create_damping_param ext (with_method m s)).2
              = calls (_create_damping_param ext s).2)
  ∧ (params_tweaks (parameters s) = Some ∅ ∨ params_tweaks (parameters s) = None ->
     let kw : gmap string pyval := {[ "method" := opt_str (method (parameters s)) ]} in
     calls (_create_damping_param ext s).2
       = calls s ++ [CallParam cls kw (engine_param ext cls kw)]
     ∧ ∀ p, (_create_damping_param ext s).1 = Return p -> dp_kwargs p = kw).
Proof.
  intros Hcls. split.
  - intros d Hd Hne.
    assert (Hkw : ∀ m, damping_kwargs (parameters (with_method m s)) = d).
    { intros m. unfold damping_kwargs. simpl. rewrite Hd. simpl.
      by rewrite bool_decide_eq_false_2. }
    assert (Hkw0 : damping_kwargs (parameters s) = d).
    { unfold damping_kwargs. rewrite Hd. simpl. by rewrite bool_decide_eq_false_2. }
    assert (Hrun : ∀ m, _create_damping_param ext (with_method m s) =
              match engine_param ext cls d with
              | None => (Return {| dp_class := cls; dp_kwargs := d |},
                         log_call (CallParam cls d None) (with_method m s))
              | Some e => (Raise (if isinstance_RuntimeError e then InputError else e),
                           log_call (CallParam cls d (Some e)) (with_method m s))
              end).
    { intros m. rewrite _create_damping_param_eq.
      replace (damping_lookup (parameters (with_method m s))) with (Some cls)
        by (by rewrite <- Hcls).
      rewrite Hkw. simpl. by destruct (engine_param ext cls d). }
    rewrite _create_damping_param_eq, Hcls, Hkw0. simpl.
    split; [|split].
    + by destruct (engine_param ext cls d).
    + intros p. destruct (engine_param ext cls d); [discriminate|].
      by intros [= <-].
    + intros m. rewrite Hrun. by destruct (engine_param ext cls d).
  - intros Hempty kw.
    assert (Hkw0 : damping_kwargs (parameters s) = kw).
    { unfold damping_kwargs. by destruct Hempty as [-> | ->]. }
    rewrite _create_damping_param_eq, Hcls, Hkw0. simpl.
    split.
    + by destruct (engine_param ext cls kw).
    + intros p. destruct (engine_param ext cls kw); [discriminate|].
      by intros [= <-].
Qed.

End DampingParameters.

(** ** The model cache over a whole calculation *)

Section Cache.

Variable ext : Externals.

(** The evaluation keeps the model and only adds to the log. *)
Lemma evaluate_frame (s : DFTD3) :
  _disp (evaluate ext s).2 = _disp s
  ∧ ∃ l, calls (evaluate ext s).2 = calls s ++ l.
Proof.
  destruct (evaluate ext s) as [out s'] eqn:Hrun. simpl.
  unfold evaluate, bind at 1 in Hrun.
  destruct (_create_damping_param ext s) as [[dp|e] sp] eqn:Hp;
    apply _create_damping_param_frame in Hp as ((_ & _ & l & Hl & _) & _ & Dp).
  2:{ injection Hrun as <- <-. eauto. }
  unfold bind, try_except_RuntimeError, disp_get_dispersion in Hrun.
  destruct (_disp sp) as [h|] eqn:Hh.
  2:{ injection Hrun as <- <-. split; [congruence | eauto]. }
  destruct (engine_dispersion ext h dp) as [res|e].
  - rewrite store_results_eq in Hrun. cbn [atoms log_call] in Hrun.
    assert (Hc : calls (stored ext res (log_call (CallDispersion h dp None) sp))
                 = calls s ++ (l ++ [CallDispersion h dp None])).
    { cbn. by rewrite Hl, app_assoc. }
    assert (Hd : _disp (stored ext res (log_call (CallDispersion h dp None) sp)) = _disp s).
    { cbn. congruence. }
    destruct (atoms sp) as [a|]; [|injection Hrun as <- <-; eauto].
    destruct (pbc_any a); [|injection Hrun as <- <-; eauto].
    destruct (get_volume ext a) as [vol|e]; [|injection Hrun as <- <-; eauto].
    destruct (py_take _ _) as [v|e]; injection Hrun as <- <-; eauto.
  - assert (Hc : calls (log_call (CallDispersion h dp (Some e)) sp)
                 = calls s ++ (l ++ [CallDispersion h dp (Some e)])).
    { cbn. by rewrite Hl, app_assoc. }
    destruct (isinstance_RuntimeError e); injection Hrun as <- <-;
      (split; [simpl; congruence | eauto]).
Qed.

(** From a state without a model, building starts with the constructor. *)
Lemma ensure_model_cold (s : DFTD3) (a : Atoms) :
  _disp s = None -> atoms s = Some a ->
  ensure_model ext s =
    match engine_new ext (numbers a) (positions_bohr ext a) (cell_bohr ext a) (pbc a) with
    | None => (Return tt, set_disp (Some (model_of ext a)) (log_call (new_call ext a) s))
    | Some e => (Raise (if isinstance_RuntimeError e then InputError else e),
                 log_call (new_call ext a) s)
    end.
Proof.
  intros Hd Ha. unfold ensure_model, bind at 1. unfold get.
  rewrite bool_decide_eq_true_2 by done.
  unfold bind. rewrite _create_api_calculator_eq, Ha. unfold new_call. simpl.
  by destruct (engine_new ext _ _ _ _).
Qed.

(** Lines 269 to 286 from a state without a model: the constructor is
    called first; when the engine accepts the structure, the new model is
    the one the calculator holds afterwards. *)
Lemma rebuild (s : DFTD3) (a : Atoms) :
  _disp s = None -> atoms s = Some a ->
  ∃ rest,
    calls ((ensure_model ext ;;; evaluate ext)%py s).2 = calls s ++ new_call ext a :: rest
    ∧ match engine_new ext (numbers a) (positions_bohr ext a) (cell_bohr ext a) (pbc a) with
      | None => _disp ((ensure_model ext ;;; evaluate ext)%py s).2 = Some (model_of ext a)
      | Some e =>
          (ensure_model ext ;;; evaluate ext)%py s
          = (Raise (if isinstance_RuntimeError e then InputError else e),
             log_call (new_call ext a) s)
      end.
Proof.
  intros Hd Ha.
  assert (Hrun : (ensure_model ext ;;; evaluate ext)%py s =
            match engine_new ext (numbers a) (positions_bohr ext a) (cell_bohr ext a)
                    (pbc a) with
            | None => evaluate ext (set_disp (Some (model_of ext a)) (log_call (new_call ext a) s))
            | Some e => (Raise (if isinstance_RuntimeError e then InputError else e),
                         log_call (new_call ext a) s)
            end).
  { unfold bind at 1. rewrite (ensure_model_cold s a) by done.
    by destruct (engine_new ext _ _ _ _). }
  rewrite Hrun.
  destruct (engine_new ext _ _ _ _) as [e|].
  - exists []. split; reflexivity.
  - set (s2 := set_disp (Some (model_of ext a)) (log_call (new_call ext a) s)).
    destruct (evaluate_frame s2) as [Hkeep [l Hl]].
    exists l. split.
    + rewrite Hl. subst s2. cbn. by rewrite <- app_assoc.
    + by rewrite Hkeep.
Qed.

(** A calculation that finds no cached model has nothing to check. *)
Lemma calculate_cold (a : Atoms) (props changes : list string) (s : DFTD3) :
  _disp s = None ->
  calculate ext (Some a) props changes s
  = (ensure_model ext ;;; evaluate ext)%py (set_atoms (Some a) s).
Proof.
  intros Hd.
  set (s0 := set_atoms (Some a) s).
  assert (Hcheck : _check_api_calculator ext changes s0 = (Return tt, s0)).
  { destruct (truthy (_reset changes)) eqn:Hr.
    - rewrite check_discards by done. subst s0. destruct s; simpl in *. by subst.
    - apply check_nothing_to_do; [by destruct (_reset changes) | by right]. }
  rewrite calculate_stages.
  change ((Calculator_calculate (Some a) (if truthy props then props else ["energy"])
             changes ;;;
           _check_api_calculator ext changes ;;; ensure_model ext ;;; evaluate ext)%py s)
    with ((_check_api_calculator ext changes ;;; ensure_model ext ;;; evaluate ext)%py s0).
  unfold bind at 1. by rewrite Hcheck.
Qed.

Lemma reset_eq (s : DFTD3) :
  reset s =
    (Return tt,
     if cache_api (parameters s) then set_results ∅ (set_atoms None s)
     else set_disp None (set_results ∅ (set_atoms None s))).
Proof.
  unfold reset, bind, Calculator_reset, modify, get. simpl.
  by destruct (cache_api (parameters s)).
Qed.

Lemma set_eq (kwargs : list keyword) (s : DFTD3) :
  set kwargs s =
    let s1 := set_parameters (set_loop kwargs (parameters s) []).1 s in
    let changed := (set_loop kwargs (parameters s) []).2 in
    (Return changed, if truthy changed then (reset s1).2 else s1).
Proof.
  unfold set, bind, Calculator_set.
  destruct (set_loop kwargs (parameters s) []) as [p changed]. cbn [fst snd].
  destruct (truthy changed); [|reflexivity].
  by rewrite reset_eq.
Qed.

(** [Calculator.set] leaves [cache_api] enabled unless a keyword disables it. *)
Lemma set_loop_cache_api (kwargs changed : list keyword) (p : Parameters) :
  kw_cache_api false ∉ kwargs -> cache_api p = true ->
  cache_api (set_loop kwargs p changed).1 = true.
Proof.
  revert p changed. induction kwargs as [|k rest IH]; intros p changed Hno Hp; simpl.
  - exact Hp.
  - apply not_elem_of_cons in Hno as [Hk Hrest].
    destruct (differs k p); [|by apply IH].
    apply IH; [done|].
    destruct k as [v|v|v|[]]; simpl; congruence.
Qed.

(** C2, as the code has it: with [cache_api] disabled, [reset] leaves no
    cached model, whatever the state and the changes that led to it, and the
    calculation that follows a reset starts by calling the constructor, that
    is, it rebuilds the model.  [calculate] itself discards nothing when it
    ends: after a successful calculation the calculator holds a model. *)
Theorem reset_without_cache_forces_rebuild (s : DFTD3) :
  cache_api (parameters s) = false ->
  (reset s).1 = Return tt
  ∧ _disp (reset s).2 = None
  ∧ (∀ a props changes, ∃ rest,
       calls (calculate ext (Some a) props changes (reset s).2).2
       = calls s ++ new_call ext a :: rest)
  ∧ (∀ arg props changes s',
       calculate ext arg props changes s = (Return tt, s') -> _disp s' ≠ None).
Proof.
  intros Hoff. rewrite reset_eq, Hoff. cbn [fst snd].
  split; [done|]. split; [done|]. split.
  - intros a props changes.
    rewrite calculate_cold by done.
    destruct (rebuild (set_atoms (Some a)
                (set_disp None (set_results ∅ (set_atoms None s)))) a)
      as (rest & Hrest & _); [done | done |].
    exists rest. by rewrite Hrest.
  - intros arg props changes s' Hrun.
    apply calculate_success in Hrun as (s1 & h & dp & res & a & _ & _ & _ & _ & _ & Hd & _).
    by rewrite Hd.
Qed.

(** C10, as the code has it: with [cache_api] enabled, [reset] leaves the
    cached model, the parameters and the log as they are and clears the
    results (and the attached structure); [set] keeps the cached model for
    every change of parameters that does not disable [cache_api] itself. *)
Theorem reset_with_cache_keeps_model (s : DFTD3) :
  cache_api (parameters s) = true ->
  reset s = (Return tt, set_results ∅ (set_atoms None s))
  ∧ _disp (reset s).2 = _disp s
  ∧ results (reset s).2 = ∅
  ∧ ∀ kwargs, kw_cache_api false ∉ kwargs ->
      _disp (set kwargs s).2 = _disp s
      ∧ cache_api (parameters (set kwargs s).2) = true.
Proof.
  intros Hon. rewrite reset_eq, Hon. cbn [fst snd].
  split; [done|]. split; [done|]. split; [done|].
  intros kwargs Hno. rewrite set_eq.
  assert (Hp : cache_api (set_loop kwargs (parameters s) []).1 = true)
    by (by apply set_loop_cache_api).
  destruct (set_loop kwargs (parameters s) []) as [p changed]. simpl in Hp.
  cbn [fst snd]. destruct (truthy changed); [|done].
  rewrite reset_eq. cbn [parameters set_parameters fst snd]. by rewrite Hp.
Qed.

(** C3, as the code has it.  A change other than "positions" and "cell"
    makes the method drop the cached model.  When the change list is not
    empty and holds only "positions" and "cell", each at most once, a
    structure is attached, a model is cached and the engine accepts the
    update, the model is kept, refreshed in place with the current positions
    and cell in the engine's unit, and the update is the only call logged
    (no constructor call). *)
Theorem check_api_calculator_cases (s : DFTD3) (changes : list string) :
  (∀ x, x ∈ changes -> x ≠ "positions" -> x ≠ "cell" ->
     _check_api_calculator ext changes s = (Return tt, set_disp None s))
  ∧ (∀ a h, changes ≠ [] -> NoDup changes ->
       (∀ x, x ∈ changes -> x = "positions" ∨ x = "cell") ->
       atoms s = Some a -> _disp s = Some h ->
       engine_update ext h (positions_bohr ext a) (cell_bohr ext a) = None ->
       _check_api_calculator ext changes s
       = (Return tt,
          set_disp (Some (model_updated h (positions_bohr ext a) (cell_bohr ext a)))
            (log_call (CallUpdate h (positions_bohr ext a) (cell_bohr ext a) None) s))).
Proof.
  split.
  - intros x Hin Hp Hc. apply check_discards.
    eapply truthy_elem. by apply _reset_other.
  - intros a h Hne Hnd Hall Ha Hd Hok.
    rewrite (check_updates ext changes s a h);
      [| by destruct changes | by apply _reset_only_geometry | done | done].
    by rewrite Hok.
Qed.

(** C4: when the in-place update of the cached model raises the engine's
    failure, [_check_api_calculator] returns normally with the model dropped,
    and the calculation it is part of calls the constructor right after the
    failed update: with the engine accepting the structure the calculator
    holds a new model afterwards, otherwise the construction error is what
    the calculation raises.  Any calculation started from the state the check
    leaves begins with the constructor as well. *)
Theorem update_failure_falls_back
  (s : DFTD3) (a : Atoms) (h : DispersionModel) (changes props : list string) (e : exn) :
  _disp s = Some h -> truthy changes = true -> _reset changes = [] ->
  engine_update ext h (positions_bohr ext a) (cell_bohr ext a) = Some e ->
  isinstance_RuntimeError e = true ->
  let s0 := set_atoms (Some a) s in
  let s1 := set_disp None (log_call (update_call ext h a) s0) in
  _check_api_calculator ext changes s0 = (Return tt, s1)
  ∧ (∃ rest,
       calls (calculate ext (Some a) props changes s).2
       = calls s ++ update_call ext h a :: new_call ext a :: rest
       ∧ match engine_new ext (numbers a) (positions_bohr ext a) (cell_bohr ext a)
                 (pbc a) with
         | None => _disp (calculate ext (Some a) props changes s).2 = Some (model_of ext a)
         | Some e' =>
             calculate ext (Some a) props changes s
             = (Raise (if isinstance_RuntimeError e' then InputError else e'),
                log_call (new_call ext a) s1)
         end)
  ∧ (∀ a' props' changes', ∃ rest,
       calls (calculate ext (Some a') props' changes' s1).2
       = calls s1 ++ new_call ext a' :: rest
       ∧ (engine_new ext (numbers a') (positions_bohr ext a') (cell_bohr ext a') (pbc a')
          = None ->
          _disp (calculate ext (Some a') props' changes' s1).2 = Some (model_of ext a'))).
Proof.
  intros Hd Hc Hr Hfail Hkind s0 s1.
  assert (Hcheck : _check_api_calculator ext changes s0 = (Return tt, s1)).
  { rewrite (check_updates ext changes s0 a h) by done.
    subst s1. unfold update_call. cbn zeta. by rewrite Hfail, Hkind. }
  split; [exact Hcheck|]. split.
  - assert (Hrun : calculate ext (Some a) props changes s
                   = (ensure_model ext ;;; evaluate ext)%py s1).
    { rewrite calculate_stages.
      change ((Calculator_calculate (Some a) (if truthy props then props else ["energy"])
                 changes ;;;
               _check_api_calculator ext changes ;;; ensure_model ext ;;; evaluate ext)%py s)
        with ((_check_api_calculator ext changes ;;; ensure_model ext ;;; evaluate ext)%py s0).
      unfold bind at 1. by rewrite Hcheck. }
    rewrite Hrun.
    destruct (rebuild s1 a) as (rest & Hrest & Hnew); [done | done |].
    exists rest. split; [|exact Hnew].
    rewrite Hrest. subst s1 s0. cbn. by rewrite <- app_assoc.
  - intros a' props' changes'.
    rewrite calculate_cold by done.
    destruct (rebuild (set_atoms (Some a') s1) a') as (rest & Hrest & Hnew); [done | done |].
    exists rest. split; [by rewrite Hrest|].
    intros Hok. by rewrite Hok in Hnew.
Qed.

End Cache.

(** ** The results of a calculation *)

Section Outputs.

Variable ext : Externals.

Lemma store_results_calls (res : DispersionResult) (s : DFTD3) :
  calls (store_results ext res s).2 = calls s.
Proof.
  rewrite store_results_eq.
  destruct (atoms s) as [a|]; [|reflexivity].
  destruct (pbc_any a); [|reflexivity].
  destruct (get_volume ext a) as [vol|e]; [|reflexivity].
  by destruct (py_take _ _).
Qed.

Lemma voigt_of_3x3 (vol xx xy xz yx yy yz zx zy zz : float) (res : DispersionResult) :
  res_virial res = [[xx; xy; xz]; [yx; yy; yz]; [zx; zy; zz]] ->
  py_take (flat (stress_matrix ext res vol)) [0; 4; 8; 5; 2; 1]%nat
  = Return (map (to_stress ext vol) [xx; yy; zz; yz; xz; xy]).
Proof. intros H. unfold stress_matrix. rewrite H. reflexivity. Qed.

(** C5: after a successful calculation on a structure with a periodic
    direction, the stored ext stress holds the entries of the engine's virial,
    each multiplied by Hartree and divided by the cell volume, at the flat
    row-major indices 0, 4, 8, 5, 2, 1; for a 3x3 virial these are its xx, yy,
    zz, yz, xz and xy entries, in this order. *)
Theorem stress_is_voigt_of_virial
  (arg : option Atoms) (props changes : list string) (s s' : DFTD3) (a : Atoms) :
  calculate ext arg props changes s = (Return tt, s') ->
  atoms s' = Some a -> pbc_any a = true ->
  ∃ h dp res vol v,
    last (calls s') = Some (CallDispersion h dp None)
    ∧ engine_dispersion ext h dp = Return res
    ∧ get_volume ext a = Return vol
    ∧ results s' !! "stress" = Some (Vector v)
    ∧ py_take (flat (array2_div (array2_mul (res_virial res) (Hartree ext)) vol))
        [0; 4; 8; 5; 2; 1]%nat = Return v
    ∧ ∀ xx xy xz yx yy yz zx zy zz,
        res_virial res = [[xx; xy; xz]; [yx; yy; yz]; [zx; zy; zz]] ->
        v = map (fun x => Float.div (Float.mul x (Hartree ext)) vol)
              [xx; yy; zz; yz; xz; xy].
Proof.
  intros Hrun Ha Hper.
  apply calculate_success in Hrun
    as (s1 & h & dp & res & a0 & _ & Hres & Hcalls & Ha0 & _ & _ & _ & Hstore).
  assert (a0 = a) as -> by congruence.
  rewrite Hper in Hstore. destruct Hstore as (vol & v & Hvol & Hv & Hresults).
  exists h, dp, res, vol, v.
  split; [by rewrite Hcalls, last_snoc|].
  split; [done|]. split; [done|].
  split; [by rewrite Hresults, lookup_insert_eq|].
  split; [exact Hv|].
  intros xx xy xz yx yy yz zx zy zz Hvir.
  rewrite (voigt_of_3x3 vol xx xy xz yx yy yz zx zy zz res Hvir) in Hv.
  by injection Hv as <-.
Qed.

(** C8: after a successful calculation the stored ext forces are the negation
    of the engine's gradient multiplied by Hartree and divided by Bohr. *)
Theorem forces_are_negated_gradient
  (arg : option Atoms) (props changes : list string) (s s' : DFTD3) :
  calculate ext arg props changes s = (Return tt, s') ->
  ∃ h dp res,
    last (calls s') = Some (CallDispersion h dp None)
    ∧ engine_dispersion ext h dp = Return res
    ∧ results s' !! "forces"
      = Some (Matrix (array2_neg (array2_div (array2_mul (res_gradient res) (Hartree ext))
                                    (Bohr ext)))).
Proof.
  intros Hrun.
  apply calculate_success in Hrun
    as (s1 & h & dp & res & a & _ & Hres & Hcalls & _ & _ & _ & _ & Hstore).
  exists h, dp, res.
  split; [by rewrite Hcalls, last_snoc|]. split; [done|].
  rewrite <- forces_negated.
  destruct (pbc_any a).
  - destruct Hstore as (vol & v & _ & _ & ->).
    rewrite lookup_insert_ne by done. cbn. by rewrite lookup_insert_eq.
  - rewrite Hstore. cbn. by rewrite lookup_insert_eq.
Qed.

(** C7, as the code has it: a successful calculation stores the stress
    exactly when the structure has a periodic direction, so the key is in
    the results afterwards if and only if the structure is periodic or the
    key was there before the call; from results without a stress (as [reset]
    leaves them) it is there if and only if the structure is periodic.
    Energy, free energy (the same value) and forces are there in any case. *)
Theorem stress_stored_iff_periodic
  (arg : option Atoms) (props changes : list string) (s s' : DFTD3) :
  calculate ext arg props changes s = (Return tt, s') ->
  ∃ a, atoms s' = Some a
    ∧ (is_Some (results s' !! "stress")
       ↔ pbc_any a = true ∨ is_Some (results s !! "stress"))
    ∧ (results s !! "stress" = None ->
       (is_Some (results s' !! "stress") ↔ pbc_any a = true))
    ∧ is_Some (results s' !! "energy")
    ∧ results s' !! "free_energy" = results s' !! "energy"
    ∧ is_Some (results s' !! "forces").
Proof.
  intros Hrun.
  apply calculate_success in Hrun
    as (s1 & h & dp & res & a & (_ & Hr1 & _) & _ & _ & Ha & _ & _ & _ & Hstore).
  exists a. split; [done|].
  assert (Hbase : results (stored ext res s1) !! "stress" = results s !! "stress").
  { cbn. rewrite !lookup_insert_ne by done. by rewrite Hr1. }
  assert (Hiff : is_Some (results s' !! "stress")
                 ↔ pbc_any a = true ∨ is_Some (results s !! "stress")).
  { destruct (pbc_any a).
    - destruct Hstore as (vol & v & _ & _ & ->). rewrite lookup_insert_eq.
      split; [by left | by eexists].
    - rewrite Hstore, Hbase. split; [by right | by intros [|]]. }
  split; [exact Hiff|]. split.
  { intros Hnone. rewrite Hiff, Hnone. split; [|by left].
    intros [|[? ?]]; done. }
  assert (Hkeep : ∀ k, k ≠ "stress" ->
            results s' !! k = results (stored ext res s1) !! k).
  { intros k Hk. destruct (pbc_any a).
    - destruct Hstore as (vol & v & _ & _ & ->). by rewrite lookup_insert_ne.
    - by rewrite Hstore. }
  rewrite !Hkeep by done. cbn.
  rewrite (lookup_insert_ne _ "forces" "energy") by done.
  rewrite (lookup_insert_ne _ "forces" "free_energy") by done.
  rewrite (lookup_insert_ne _ "free_energy" "energy") by done.
  rewrite !lookup_insert_eq. eauto.
Qed.

(** C9: when the last thing a calculation did at the engine is an
    evaluation that raised the engine's failure, the calculation raises
    [CalculationFailed] and the results are what they were before the call. *)
Theorem dispersion_failure_stores_nothing
  (arg : option Atoms) (props changes : list string) (s : DFTD3)
  (pre : list call) (h : DispersionModel) (dp : DampingParam) (e : exn) :
  calls (calculate ext arg props changes s).2
  = calls s ++ pre ++ [CallDispersion h dp (Some e)] ->
  isinstance_RuntimeError e = true ->
  (calculate ext arg props changes s).1 = Raise CalculationFailed
  ∧ results (calculate ext arg props changes s).2 = results s
  ∧ engine_dispersion ext h dp = Raise e.
Proof.
  intros Hlog Hkind.
  destruct (calculate_run ext arg props changes s)
    as (s1 & (_ & Hr1 & l & Hl & Hquiet) & _ & [[e0 He]|(h' & dp' & _ & He)]).
  - rewrite He in Hlog. cbn in Hlog. rewrite Hl in Hlog.
    apply app_inv_head in Hlog. subst l.
    apply Forall_app in Hquiet as [_ Hq]. by inversion Hq.
  - destruct (engine_dispersion ext h' dp') as [res|e'] eqn:Hres; rewrite He in *.
    + rewrite store_results_calls in Hlog. cbn in Hlog. rewrite Hl in Hlog.
      rewrite <- app_assoc in Hlog. apply app_inv_head in Hlog.
      apply app_inj_tail in Hlog as [_ [=]].
    + cbn in Hlog. rewrite Hl, <- app_assoc in Hlog. apply app_inv_head in Hlog.
      apply app_inj_tail in Hlog as [_ [= -> -> ->]].
      rewrite Hkind. cbn. by rewrite Hr1.
Qed.

End Outputs.

(** ** The statements on the sample runs *)

(** The sample for C1: the name "bj" is no key, and the factory raises
    [KeyError]. *)
Lemma create_damping_param_unknown_name_witness :
  (∀ name, damping (parameters Runs.misnamed) = Some name -> name ∉ known_damping_names)
  ∧ _create_damping_param Sample.engine Runs.misnamed = (Raise KeyError, Runs.misnamed).
Proof.
  assert (H : ∀ name, damping (parameters Runs.misnamed) = Some name ->
                name ∉ known_damping_names).
  { intros name [= <-] Hin. unfold known_damping_names in Hin.
    repeat (apply elem_of_cons in Hin as [Hin|Hin]; [discriminate Hin|]).
    by apply elem_of_nil in Hin. }
  split; [exact H|].
  exact (create_damping_param_unknown_name Sample.engine Runs.misnamed H).
Defined.

(** C2 as stated fails: with [cache_api] disabled, the calculator holds the
    model after a successful calculation, and the next calculation, after a
    move of the atom, updates that model in place: the constructor ran once
    over the two calculations. *)
Lemma calculate_keeps_model_without_cache :
  cache_api (parameters (Runs.first false).2) = false
  ∧ (Runs.first false).1 = Return tt
  ∧ _disp (Runs.first false).2 = Some Sample.crystal_model
  ∧ (Runs.moved false).1 = Return tt
  ∧ Runs.built (calls (Runs.moved false).2) = 1%nat.
Proof. vm_compute. repeat split. Qed.

(** The sample for C2: a reset of a calculator without [cache_api] drops the
    model, and the calculation after it starts with the constructor. *)
Lemma reset_without_cache_forces_rebuild_witness :
  cache_api (parameters (Sample.warm false)) = false
  ∧ _disp (reset (Sample.warm false)).2 = None
  ∧ ∃ rest,
      calls (calculate Sample.engine (Some Sample.crystal) [] ["positions"]
               (reset (Sample.warm false)).2).2
      = new_call Sample.engine Sample.crystal :: rest.
Proof.
  assert (H : cache_api (parameters (Sample.warm false)) = false) by reflexivity.
  destruct (reset_without_cache_forces_rebuild Sample.engine (Sample.warm false) H)
    as (_ & Hnone & Hnext & _).
  split; [exact H|]. split; [exact Hnone|].
  exact (Hnext Sample.crystal [] ["positions"]).
Defined.

(** C3 as stated fails: on a change list that holds only "positions", the
    cached model is dropped when the engine refuses the update, and it is
    dropped without any call to the engine when "positions" is listed
    twice. *)
Lemma check_drops_model_on_positions_only :
  (_check_api_calculator Sample.engine_bad_update ["positions"] (Sample.warm true)).1
  = Return tt
  ∧ _disp (_check_api_calculator Sample.engine_bad_update ["positions"]
             (Sample.warm true)).2 = None
  ∧ _disp (_check_api_calculator Sample.engine ["positions"; "positions"]
             (Sample.warm true)).2 = None
  ∧ calls (_check_api_calculator Sample.engine ["positions"; "positions"]
             (Sample.warm true)).2 = [].
Proof. vm_compute. repeat split. Qed.

(** The sample for C3: "numbers" among the changes drops the model; the
    changes "positions" and "cell" refresh it in place. *)
Lemma check_api_calculator_cases_witness :
  _disp (_check_api_calculator Sample.engine ["positions"; "numbers"]
           (Sample.warm true)).2 = None
  ∧ _check_api_calculator Sample.engine ["positions"; "cell"] (Sample.warm true)
    = (Return tt,
       set_disp
         (Some (model_updated Sample.crystal_model
                  (positions_bohr Sample.engine Sample.crystal)
                  (cell_bohr Sample.engine Sample.crystal)))
         (log_call
            (CallUpdate Sample.crystal_model
               (positions_bohr Sample.engine Sample.crystal)
               (cell_bohr Sample.engine Sample.crystal) None)
            (Sample.warm true))).
Proof.
  split.
  - destruct (check_api_calculator_cases Sample.engine (Sample.warm true)
                ["positions"; "numbers"]) as [Hdrop _].
    rewrite (Hdrop "numbers"); [reflexivity | | discriminate | discriminate].
    apply elem_of_cons; right. apply elem_of_cons; by left.
  - destruct (check_api_calculator_cases Sample.engine (Sample.warm true)
                ["positions"; "cell"]) as [_ Hkeep].
    apply Hkeep; try reflexivity.
    + discriminate.
    + apply NoDup_cons; split.
      * intros Hin. apply elem_of_cons in Hin as [Hin|Hin]; [discriminate Hin|].
        by apply elem_of_nil in Hin.
      * apply NoDup_cons; split; [apply not_elem_of_nil | apply NoDup_nil_2].
    + intros x Hin. apply elem_of_cons in Hin as [->|Hin]; [by left|].
      apply elem_of_cons in Hin as [->|Hin]; [by right|].
      by apply elem_of_nil in Hin.
Defined.

(** The sample for C4: the engine refuses the update of the cached model,
    the check drops it, and the calculation goes on with a new model. *)
Lemma update_failure_falls_back_witness :
  engine_update Sample.engine_bad_update Sample.crystal_model
    (positions_bohr Sample.engine_bad_update Sample.crystal)
    (cell_bohr Sample.engine_bad_update Sample.crystal) = Some RuntimeError
  ∧ (_check_api_calculator Sample.engine_bad_update ["positions"]
       (set_atoms (Some Sample.crystal) (Sample.warm true))).1 = Return tt
  ∧ _disp (_check_api_calculator Sample.engine_bad_update ["positions"]
             (set_atoms (Some Sample.crystal) (Sample.warm true))).2 = None
  ∧ _disp (calculate Sample.engine_bad_update (Some Sample.crystal) [] ["positions"]
             (Sample.warm true)).2
    = Some (model_of Sample.engine_bad_update Sample.crystal).
Proof.
  destruct (update_failure_falls_back Sample.engine_bad_update (Sample.warm true)
              Sample.crystal Sample.crystal_model ["positions"] [] RuntimeError
              eq_refl eq_refl eq_refl eq_refl eq_refl)
    as (Hcheck & (rest & _ & Hnew) & _).
  split; [reflexivity|].
  rewrite Hcheck. split; [reflexivity|]. split; [reflexivity|].
  exact Hnew.
Defined.

Lemma first_run_succeeds (cache : bool) :
  calculate Sample.engine (Some Sample.crystal) [] all_changes (Runs.cold cache)
  = (Return tt, (Runs.first cache).2).
Proof. destruct cache; vm_compute; reflexivity. Defined.

(** The sample for C5: on the crystal, whose volume the sample engine gives
    as 8, the virial with the rows 1 2 3, 4 5 6 and 7 8 9 is stored ext as the
    converted entries 1, 5, 9, 6, 3, 2. *)
Lemma stress_is_voigt_of_virial_witness :
  calculate Sample.engine (Some Sample.crystal) [] all_changes (Runs.cold true)
  = (Return tt, (Runs.first true).2)
  ∧ atoms (Runs.first true).2 = Some Sample.crystal
  ∧ pbc_any Sample.crystal = true
  ∧ results (Runs.first true).2 !! "stress"
    = Some (Vector (map (fun x => Float.div (Float.mul x Sample.Hartree_2014) (Sample.z 8))
                      [Sample.z 1; Sample.z 5; Sample.z 9;
                       Sample.z 6; Sample.z 3; Sample.z 2])).
Proof.
  destruct (stress_is_voigt_of_virial Sample.engine (Some Sample.crystal) [] all_changes
              (Runs.cold true) (Runs.first true).2 Sample.crystal
              (first_run_succeeds true) eq_refl eq_refl)
    as (h & dp & res & vol & v & _ & Hres & Hvol & Hstress & _ & Hvoigt).
  injection Hres as <-. injection Hvol as <-.
  split; [exact (first_run_succeeds true)|].
  split; [reflexivity|]. split; [reflexivity|].
  rewrite Hstress. f_equal. f_equal.
  exact (Hvoigt _ _ _ _ _ _ _ _ _ eq_refl).
Defined.

(** The sample for C6: with the three explicit parameters the class is
    called with exactly them, whatever the method; without them it is called
    with the method. *)
Lemma params_tweaks_precede_method_witness :
  damping_lookup (parameters Runs.tweaked) = Some RationalDampingParam
  ∧ calls (_create_damping_param Sample.engine Runs.tweaked).2
    = [CallParam RationalDampingParam Runs.tweaks None]
  ∧ (_create_damping_param Sample.engine (with_method (Some "tpss") Runs.tweaked)).1
    = (_create_damping_param Sample.engine Runs.tweaked).1
  ∧ calls (_create_damping_param Sample.engine (Runs.cold true)).2
    = [CallParam RationalDampingParam {[ "method" := PyStr "pbe" ]} None].
Proof.
  assert (Hcls : damping_lookup (parameters Runs.tweaked) = Some RationalDampingParam)
    by reflexivity.
  assert (Hcls' : damping_lookup (parameters (Runs.cold true)) = Some RationalDampingParam)
    by reflexivity.
  destruct (params_tweaks_precede_method Sample.engine Runs.tweaked
              RationalDampingParam Hcls) as [Htweaks _].
  destruct (params_tweaks_precede_method Sample.engine (Runs.cold true)
              RationalDampingParam Hcls') as [_ Hmethod].
  destruct (Htweaks Runs.tweaks eq_refl (insert_non_empty _ _ _)) as (Hcall & _ & Hsame).
  destruct (Hmethod (or_introl eq_refl)) as [Hcall' _].
  split; [exact Hcls|]. split; [exact Hcall|].
  split; [exact (proj1 (Hsame (Some "tpss")))|].
  exact Hcall'.
Defined.

(** C7 as stated fails: the calculator that has computed the crystal and
    then computes the molecule, which has no periodic direction, succeeds
    and still has a stress in its results. *)
Lemma stale_stress_on_molecule :
  Runs.second.1 = Return tt
  ∧ atoms Runs.second.2 = Some Sample.molecule
  ∧ pbc_any Sample.molecule = false
  ∧ is_Some (results Runs.second.2 !! "stress").
Proof. vm_compute. repeat split. by eexists. Qed.

Lemma molecule_run_succeeds :
  calculate Sample.engine (Some Sample.molecule) [] all_changes (Runs.cold true)
  = (Return tt, Runs.alone.2).
Proof. vm_compute; reflexivity. Defined.

(** The sample for C7: from empty results, the crystal gets a stress and the
    molecule gets none; both get energy and forces. *)
Lemma stress_stored_iff_periodic_witness :
  calculate Sample.engine (Some Sample.crystal) [] all_changes (Runs.cold true)
  = (Return tt, (Runs.first true).2)
  ∧ is_Some (results (Runs.first true).2 !! "stress")
  ∧ is_Some (results (Runs.first true).2 !! "forces")
  ∧ results Runs.alone.2 !! "stress" = None
  ∧ is_Some (results Runs.alone.2 !! "energy").
Proof.
  destruct (stress_stored_iff_periodic Sample.engine (Some Sample.crystal) [] all_changes
              (Runs.cold true) (Runs.first true).2 (first_run_succeeds true))
    as (a & Ha & _ & Hfresh & _ & _ & Hforces).
  destruct (stress_stored_iff_periodic Sample.engine (Some Sample.molecule) [] all_changes
              (Runs.cold true) Runs.alone.2 molecule_run_succeeds)
    as (a' & Ha' & _ & Hfresh' & Henergy & _ & _).
  assert (Hper : pbc_any a = true).
  { vm_compute in Ha. injection Ha as <-. reflexivity. }
  assert (Hnot : pbc_any a' = false).
  { vm_compute in Ha'. injection Ha' as <-. reflexivity. }
  split; [exact (first_run_succeeds true)|].
  split; [exact (proj2 (Hfresh eq_refl) Hper)|].
  split; [exact Hforces|].
  split; [|exact Henergy].
  apply eq_None_not_Some. intros Hsome.
  apply (proj1 (Hfresh' eq_refl)) in Hsome. congruence.
Defined.

(** The sample for C8: the gradient 1, -2, 3 is stored ext as the negation of
    its conversion. *)
Lemma forces_are_negated_gradient_witness :
  calculate Sample.engine (Some Sample.crystal) [] all_changes (Runs.cold true)
  = (Return tt, (Runs.first true).2)
  ∧ results (Runs.first true).2 !! "forces"
    = Some (Matrix (array2_neg
                      (array2_div
                         (array2_mul [[Sample.z 1; Sample.z (-2); Sample.z 3]]
                            Sample.Hartree_2014)
                         Sample.Bohr_2014))).
Proof.
  destruct (forces_are_negated_gradient Sample.engine (Some Sample.crystal) [] all_changes
              (Runs.cold true) (Runs.first true).2 (first_run_succeeds true))
    as (h & dp & res & _ & Hres & Hforces).
  injection Hres as <-.
  split; [exact (first_run_succeeds true)|exact Hforces].
Defined.

(** The sample for C9: the engine fails the evaluation of the first
    calculation; [CalculationFailed] is raised and the results stay empty. *)
Lemma dispersion_failure_stores_nothing_witness :
  calls (calculate Sample.engine_bad_dispersion (Some Sample.crystal) [] all_changes
           (Runs.cold true)).2
  = calls (Runs.cold true)
    ++ [new_call Sample.engine_bad_dispersion Sample.crystal;
        CallParam RationalDampingParam {[ "method" := PyStr "pbe" ]} None]
    ++ [CallDispersion Sample.crystal_model Runs.pbe_param (Some RuntimeError)]
  ∧ isinstance_RuntimeError RuntimeError = true
  ∧ (calculate Sample.engine_bad_dispersion (Some Sample.crystal) [] all_changes
       (Runs.cold true)).1 = Raise CalculationFailed
  ∧ results (calculate Sample.engine_bad_dispersion (Some Sample.crystal) [] all_changes
               (Runs.cold true)).2 = ∅.
Proof.
  assert (Hlog :
    calls (calculate Sample.engine_bad_dispersion (Some Sample.crystal) [] all_changes
             (Runs.cold true)).2
    = calls (Runs.cold true)
      ++ [new_call Sample.engine_bad_dispersion Sample.crystal;
          CallParam RationalDampingParam {[ "method" := PyStr "pbe" ]} None]
      ++ [CallDispersion Sample.crystal_model Runs.pbe_param (Some RuntimeError)]).
  { vm_compute. reflexivity. }
  destruct (dispersion_failure_stores_nothing Sample.engine_bad_dispersion
              (Some Sample.crystal) [] all_changes (Runs.cold true) _ _ _ _ Hlog eq_refl)
    as (Hraise & Hresults & _).
  split; [exact Hlog|]. split; [reflexivity|]. split; [exact Hraise|exact Hresults].
Defined.

(** C10 as stated fails: the parameter change that disables [cache_api]
    drops the cached model of a calculator that had [cache_api] enabled. *)
Lemma set_cache_api_off_drops_model :
  cache_api (parameters (Sample.warm true)) = true
  ∧ _disp (Sample.warm true) = Some Sample.crystal_model
  ∧ (set [kw_cache_api false] (Sample.warm true)).1 = Return [kw_cache_api false]
  ∧ _disp (set [kw_cache_api false] (Sample.warm true)).2 = None.
Proof. vm_compute. repeat split. Qed.

(** The sample for C10: a reset and a change of the method keep the model. *)
Lemma reset_with_cache_keeps_model_witness :
  cache_api (parameters (Sample.warm true)) = true
  ∧ _disp (reset (Sample.warm true)).2 = Some Sample.crystal_model
  ∧ (set [kw_method (Some "tpss")] (Sample.warm true)).1 = Return [kw_method (Some "tpss")]
  ∧ _disp (set [kw_method (Some "tpss")] (Sample.warm true)).2
    = Some Sample.crystal_model.
Proof.
  assert (H : cache_api (parameters (Sample.warm true)) = true) by reflexivity.
  destruct (reset_with_cache_keeps_model (Sample.warm true) H)
    as (_ & Hreset & _ & Hset).
  split; [exact H|]. split; [exact Hreset|]. split; [vm_compute; reflexivity|].
  apply Hset.
  intros Hin. apply elem_of_cons in Hin as [Hin|Hin]; [discriminate Hin|].
  by apply elem_of_nil in Hin.
Defined.

(** ** The methods, case by case *)

Section Cases.

Variable ext : Externals.

Local Open Scope py_scope.

(** [_check_api_calculator] in full. *)
Lemma check_cases (changes : list string) (s : DFTD3) :
  _check_api_calculator ext changes s =
    if truthy (_reset changes) then (Return tt, set_disp None s)
    else if truthy changes then
      match _disp s with
      | None => (Return tt, s)
      | Some h =>
          match atoms s with
          | None => (Raise AttributeError, s)
          | Some a =>
              let s' := log_call (update_call ext h a) s in
              match engine_update ext h (positions_bohr ext a) (cell_bohr ext a) with
              | None =>
                  (Return tt,
                   set_disp (Some (model_updated h (positions_bohr ext a) (cell_bohr ext a)))
                     s')
              | Some e =>
                  if isinstance_RuntimeError e then (Return tt, set_disp None s')
                  else (Raise e, s')
              end
          end
      end
    else (Return tt, s).
Proof.
  destruct (truthy (_reset changes)) eqn:Hr.
  { by apply check_discards. }
  assert (Hnil : _reset changes = []) by (by destruct (_reset changes)).
  destruct (truthy changes) eqn:Hc.
  2:{ apply check_nothing_to_do; [done | left; by destruct changes]. }
  destruct (_disp s) as [h|] eqn:Hd.
  2:{ apply check_nothing_to_do; [done | by right]. }
  destruct (atoms s) as [a|] eqn:Ha.
  2:{ by eapply check_without_atoms. }
  rewrite (check_updates ext changes s a h) by done.
  unfold update_call. cbn zeta.
  by destruct (engine_update ext h _ _).
Qed.

(** Lines 269 and 270 in full. *)
Lemma ensure_model_cases (s : DFTD3) :
  ensure_model ext s =
    match _disp s with
    | Some _ => (Return tt, s)
    | None =>
        match atoms s with
        | None => (Raise AttributeError, s)
        | Some a =>
            match engine_new ext (numbers a) (positions_bohr ext a) (cell_bohr ext a)
                    (pbc a) with
            | None => (Return tt, set_disp (Some (model_of ext a)) (log_call (new_call ext a) s))
            | Some e => (Raise (if isinstance_RuntimeError e then InputError else e),
                         log_call (new_call ext a) s)
            end
        end
    end.
Proof.
  destruct (_disp s) as [h|] eqn:Hd.
  - unfold ensure_model, bind, get. rewrite Hd. by rewrite bool_decide_eq_false_2.
  - destruct (atoms s) as [a|] eqn:Ha; [by apply ensure_model_cold|].
    unfold ensure_model, bind at 1. unfold get. rewrite Hd.
    rewrite bool_decide_eq_true_2 by done.
    unfold bind. rewrite _create_api_calculator_eq. by rewrite Ha.
Qed.

(** Lines 272 to 286 in full. *)
Lemma evaluate_cases (s : DFTD3) :
  evaluate ext s =
    match damping_lookup (parameters s) with
    | None => (Raise KeyError, s)
    | Some cls =>
        let kw := damping_kwargs (parameters s) in
        let dp := {| dp_class := cls; dp_kwargs := kw |} in
        let s1 := log_call (CallParam cls kw (engine_param ext cls kw)) s in
        match engine_param ext cls kw with
        | Some e => (Raise (if isinstance_RuntimeError e then InputError else e), s1)
        | None =>
            match _disp s with
            | None => (Raise AttributeError, s1)
            | Some h =>
                match engine_dispersion ext h dp with
                | Raise e =>
                    (Raise (if isinstance_RuntimeError e then CalculationFailed else e),
                     log_call (CallDispersion h dp (Some e)) s1)
                | Return res =>
                    store_results ext res (log_call (CallDispersion h dp None) s1)
                end
            end
        end
    end.
Proof.
  unfold evaluate, bind at 1. rewrite _create_damping_param_eq.
  destruct (damping_lookup (parameters s)) as [cls|]; [|reflexivity].
  cbn zeta. destruct (engine_param ext cls _) as [e|]; [reflexivity|].
  unfold bind, try_except_RuntimeError, disp_get_dispersion. cbn [_disp log_call].
  destruct (_disp s) as [h|]; [|reflexivity].
  destruct (engine_dispersion ext h _) as [res|e]; [reflexivity|].
  by destruct (isinstance_RuntimeError e).
Qed.

(** A calculation is the three stages, run on the current structure. *)
Lemma calculate_cases (arg : option Atoms) (props changes : list string) (s : DFTD3) :
  calculate ext arg props changes s =
    match _check_api_calculator ext changes (set_atoms (current_atoms arg s) s) with
    | (Raise e, s1) => (Raise e, s1)
    | (Return _, s1) =>
        match ensure_model ext s1 with
        | (Raise e, s2) => (Raise e, s2)
        | (Return _, s2) => evaluate ext s2
        end
    end.
Proof.
  rewrite calculate_stages.
  assert (Hbase : set_atoms (current_atoms arg s) s
                  = match arg with Some x => set_atoms (Some x) s | None => s end).
  { destruct arg; [reflexivity|]. by destruct s. }
  rewrite Hbase. by destruct arg.
Qed.

End Cases.

(** ** More on the change list *)

Lemma py_remove_length (x : string) (l : list string) :
  (List.length l ≤ S (List.length (py_remove x l)))%nat.
Proof.
  induction l as [|y l IH]; simpl; [lia|].
  case_bool_decide; simpl; lia.
Qed.

Lemma _reset_length (l : list string) :
  (List.length l ≤ 2 + List.length (_reset l))%nat.
Proof.
  unfold _reset.
  pose proof (py_remove_length "positions" l) as H1.
  destruct (py_in "positions" l).
  - pose proof (py_remove_length "cell" (py_remove "positions" l)) as H2.
    destruct (py_in "cell" _); lia.
  - pose proof (py_remove_length "cell" l) as H2.
    destruct (py_in "cell" l); lia.
Qed.

(** Lines 202 to 206: the list [_reset] is empty exactly for the change
    lists that name nothing but "positions" and "cell" and name neither
    twice. *)
Theorem reset_list_empty_iff (l : list string) :
  _reset l = [] ↔ NoDup l ∧ ∀ x, x ∈ l -> x = "positions" ∨ x = "cell".
Proof.
  split; [|intros [Hnd Hall]; by apply _reset_only_geometry].
  intros Hnil.
  assert (Hall : ∀ x, x ∈ l -> x = "positions" ∨ x = "cell").
  { intros x Hin.
    destruct (decide (x = "positions")) as [|Hp]; [by left|].
    destruct (decide (x = "cell")) as [|Hc]; [by right|].
    pose proof (_reset_other x l Hin Hp Hc) as Hx.
    rewrite Hnil in Hx. by apply elem_of_nil in Hx. }
  split; [|exact Hall].
  pose proof (_reset_length l) as Hlen. rewrite Hnil in Hlen. simpl in Hlen.
  destruct l as [|a [|b [|c l]]]; [apply NoDup_nil_2 | | | simpl in Hlen; lia].
  - apply NoDup_singleton.
  - apply NoDup_cons. split; [|apply NoDup_singleton].
    intros Hab. apply list_elem_of_singleton in Hab. subst b.
    destruct (Hall a) as [->| ->]; [by left | |]; discriminate Hnil.
Qed.

(** ** More on the model cache *)

Section CacheMore.

Variable ext : Externals.

(** Lines 198 to 222: [_check_api_calculator] never builds a model and never
    touches parameters, structure or results.  Whatever the change list, it
    calls the engine at most once, and then to update the model that was
    cached; a calculator without a cached model is left exactly as it was. *)
Theorem check_never_builds (changes : list string) (s : DFTD3) :
  parameters (_check_api_calculator ext changes s).2 = parameters s
  ∧ atoms (_check_api_calculator ext changes s).2 = atoms s
  ∧ results (_check_api_calculator ext changes s).2 = results s
  ∧ (calls (_check_api_calculator ext changes s).2 = calls s
     ∨ ∃ h a, _disp s = Some h ∧ atoms s = Some a
         ∧ calls (_check_api_calculator ext changes s).2
           = calls s ++ [update_call ext h a])
  ∧ (_disp s = None -> _check_api_calculator ext changes s = (Return tt, s)).
Proof.
  rewrite check_cases.
  destruct (truthy (_reset changes)).
  { repeat (split; [done|]). split; [by left|].
    intros Hd. f_equal. destruct s; simpl in *. by subst. }
  destruct (truthy changes); [|by repeat (split; [done|]); split; [left|]].
  destruct (_disp s) as [h|] eqn:Hd; [|by repeat (split; [done|]); split; [left|]].
  destruct (atoms s) as [a|] eqn:Ha; [|by repeat (split; [done|]); split; [left|]].
  cbn zeta.
  destruct (engine_update ext h _ _) as [e|]; [destruct (isinstance_RuntimeError e)|];
    (repeat (split; [done|])); (split; [right; by exists h, a | done]).
Qed.

(** Lines 213 to 222: only the engine's failure is caught.  When the update
    of the cached model raises another kind of exception, the check raises it,
    the cached model stays, and a calculation stops there: it has called
    neither the constructor nor the evaluation and has stored nothing. *)
Theorem update_error_of_other_kind_propagates
  (s : DFTD3) (a : Atoms) (h : DispersionModel) (changes props : list string) (e : exn) :
  _disp s = Some h -> truthy changes = true -> _reset changes = [] ->
  engine_update ext h (positions_bohr ext a) (cell_bohr ext a) = Some e ->
  isinstance_RuntimeError e = false ->
  calculate ext (Some a) props changes s
  = (Raise e, log_call (update_call ext h a) (set_atoms (Some a) s)).
Proof.
  intros Hd Hc Hr Hfail Hkind.
  rewrite calculate_cases, check_cases. cbn [current_atoms].
  rewrite Hr, Hc. cbn [truthy _disp atoms set_atoms]. rewrite Hd. cbn zeta.
  by rewrite Hfail, Hkind.
Qed.

(** Lines 224 to 241 and 269 to 270: a calculation that has no usable model
    (none is cached, or the change list makes the check drop it) calls the
    constructor with the atomic numbers, the positions and the cell divided by
    Bohr and the periodicity flags of the structure it is given.  When the
    engine refuses the structure, the calculation raises [InputError], it has
    made no other call, the results are as before and no model is cached. *)
Theorem refused_structure_is_input_error
  (s : DFTD3) (a : Atoms) (changes props : list string) (e : exn) :
  _disp s = None ∨ truthy (_reset changes) = true ->
  engine_new ext (numbers a) (array2_div (positions a) (Bohr ext))
    (array2_div (cell a) (Bohr ext)) (pbc a) = Some e ->
  isinstance_RuntimeError e = true ->
  calculate ext (Some a) props changes s
  = (Raise InputError,
     log_call
       (CallNew (numbers a) (array2_div (positions a) (Bohr ext))
          (array2_div (cell a) (Bohr ext)) (pbc a) (Some e))
       (set_disp None (set_atoms (Some a) s))).
Proof.
  intros Hcold Hnew Hkind.
  rewrite calculate_cases. cbn [current_atoms].
  assert (Hcheck : _check_api_calculator ext changes (set_atoms (Some a) s)
                   = (Return tt, set_disp None (set_atoms (Some a) s))).
  { destruct (truthy (_reset changes)) eqn:Hr.
    - by apply check_discards.
    - destruct Hcold as [Hd|]; [|done].
      rewrite check_cases, Hr. cbn [_disp set_atoms]. rewrite Hd.
      replace (set_disp None (set_atoms (Some a) s)) with (set_atoms (Some a) s)
        by (destruct s; simpl in *; by subst).
      by destruct (truthy changes). }
  rewrite Hcheck, ensure_model_cases. cbn [_disp atoms set_disp set_atoms].
  fold (positions_bohr ext a) (cell_bohr ext a) in Hnew.
  unfold new_call. fold (positions_bohr ext a) (cell_bohr ext a).
  by rewrite Hnew, Hkind.
Qed.

End CacheMore.

(** ** More on the damping parameter factory *)

Section FactoryMore.

Variable ext : Externals.

(** Lines 243 to 253: for each of the seven names of the table, the factory
    calls the class the table gives, once, with the keyword arguments of line
    247, and changes nothing but the log.  It returns the object when the
    class accepts the arguments, raises [InputError] when the class raises
    the engine's failure, and lets any other exception through. *)
Theorem create_damping_param_known_name (s : DFTD3) (name : string) :
  damping (parameters s) = Some name -> name ∈ known_damping_names ->
  ∃ cls, _damping_param !! name = Some cls
    ∧ _create_damping_param ext s
      = (match engine_param ext cls (damping_kwargs (parameters s)) with
         | None => Return {| dp_class := cls; dp_kwargs := damping_kwargs (parameters s) |}
         | Some e => Raise (if isinstance_RuntimeError e then InputError else e)
         end,
         log_call (CallParam cls (damping_kwargs (parameters s))
                     (engine_param ext cls (damping_kwargs (parameters s)))) s).
Proof.
  intros Hname Hknown.
  destruct (damping_table_known name Hknown) as [cls Hcls].
  exists cls. split; [exact Hcls|].
  rewrite _create_damping_param_eq. unfold damping_lookup. rewrite Hname. simpl.
  rewrite Hcls. by destruct (engine_param ext cls _).
Qed.

(** Lines 111 to 119: the two spellings of a modified damping select the
    same class, so the factory does the same under either: "d3bjm" as
    "d3mbj", and "d3zerom" as "d3mzero". *)
Theorem damping_aliases_agree (s : DFTD3) :
  ((_create_damping_param ext (with_damping (Some "d3bjm") s)).1
   = (_create_damping_param ext (with_damping (Some "d3mbj") s)).1
   ∧ calls (_create_damping_param ext (with_damping (Some "d3bjm") s)).2
     = calls (_create_damping_param ext (with_damping (Some "d3mbj") s)).2)
  ∧ ((_create_damping_param ext (with_damping (Some "d3zerom") s)).1
     = (_create_damping_param ext (with_damping (Some "d3mzero") s)).1
     ∧ calls (_create_damping_param ext (with_damping (Some "d3zerom") s)).2
       = calls (_create_damping_param ext (with_damping (Some "d3mzero") s)).2).
Proof.
  rewrite !_create_damping_param_eq.
  change (damping_lookup (parameters (with_damping (Some "d3bjm") s)))
    with (Some ModifiedRationalDampingParam).
  change (damping_lookup (parameters (with_damping (Some "d3mbj") s)))
    with (Some ModifiedRationalDampingParam).
  change (damping_lookup (parameters (with_damping (Some "d3zerom") s)))
    with (Some ModifiedZeroDampingParam).
  change (damping_lookup (parameters (with_damping (Some "d3mzero") s)))
    with (Some ModifiedZeroDampingParam).
  change (damping_kwargs (parameters (with_damping _ s)))
    with (damping_kwargs (parameters s)).
  cbn zeta.
  split; by destruct (engine_param ext _ _).
Qed.

End FactoryMore.

(** ** More on [reset] and [set] *)



(** Lines 191 to 196: [reset] returns normally, clears the results and the
    attached structure, keeps parameters and makes no engine call; the cached
    model is kept exactly when [cache_api] is enabled; and a second [reset]
    changes nothing any more. *)
Theorem reset_idempotent (s : DFTD3) :
  (reset s).1 = Return tt
  ∧ results (reset s).2 = ∅
  ∧ atoms (reset s).2 = None
  ∧ parameters (reset s).2 = parameters s
  ∧ calls (reset s).2 = calls s
  ∧ _disp (reset s).2 = (if cache_api (parameters s) then _disp s else None)
  ∧ reset (reset s).2 = reset s.
Proof.
  rewrite !reset_eq. cbn [fst snd].
  destruct (cache_api (parameters s)) eqn:Hc; cbn; rewrite Hc; by repeat split.
Qed.


(** ** The calls of a calculation *)

Section Protocol.

Variable ext : Externals.

Lemma check_shape (changes : list string) (s : DFTD3) :
  parameters (_check_api_calculator ext changes s).2 = parameters s
  ∧ atoms (_check_api_calculator ext changes s).2 = atoms s
  ∧ results (_check_api_calculator ext changes s).2 = results s
  ∧ ∃ lu, calls (_check_api_calculator ext changes s).2 = calls s ++ lu
      ∧ (lu = [] ∨ ∃ h a, _disp s = Some h ∧ atoms s = Some a
                     ∧ lu = [update_call ext h a]).
Proof.
  rewrite check_cases.
  assert (Hnone : ∀ (o : outcome unit) (s' : DFTD3),
            parameters s' = parameters s -> atoms s' = atoms s ->
            results s' = results s -> calls s' = calls s ->
            parameters (o, s').2 = parameters s ∧ atoms (o, s').2 = atoms s
            ∧ results (o, s').2 = results s
            ∧ ∃ lu, calls (o, s').2 = calls s ++ lu
                ∧ (lu = [] ∨ ∃ h a, _disp s = Some h ∧ atoms s = Some a
                               ∧ lu = [update_call ext h a])).
  { intros o s' ? ? ? Hc. repeat (split; [done|]). exists [].
    split; [by rewrite app_nil_r | by left]. }
  destruct (truthy (_reset changes)); [by apply Hnone|].
  destruct (truthy changes); [|by apply Hnone].
  destruct (_disp s) as [h|] eqn:Hd; [|by apply Hnone].
  destruct (atoms s) as [a|] eqn:Ha; [|by apply Hnone].
  cbn zeta.
  destruct (engine_update ext h _ _) as [e|]; [destruct (isinstance_RuntimeError e)|];
    (repeat (split; [done|])); exists [update_call ext h a];
    (split; [done | right; by exists h, a]).
Qed.

Lemma ensure_model_shape (s : DFTD3) :
  parameters (ensure_model ext s).2 = parameters s
  ∧ atoms (ensure_model ext s).2 = atoms s
  ∧ results (ensure_model ext s).2 = results s
  ∧ ∃ ln, calls (ensure_model ext s).2 = calls s ++ ln
      ∧ (ln = [] ∨ ∃ a, _disp s = None ∧ atoms s = Some a ∧ ln = [new_call ext a]).
Proof.
  rewrite ensure_model_cases.
  destruct (_disp s) as [h|] eqn:Hd.
  { repeat (split; [done|]). exists []. split; [by rewrite app_nil_r | by left]. }
  destruct (atoms s) as [a|] eqn:Ha.
  2:{ repeat (split; [done|]). exists []. split; [by rewrite app_nil_r | by left]. }
  destruct (engine_new ext _ _ _ _) as [e|];
    (repeat (split; [done|])); exists [new_call ext a];
    (split; [done | right; by exists a]).
Qed.

Lemma store_results_frame (res : DispersionResult) (s : DFTD3) :
  parameters (store_results ext res s).2 = parameters s
  ∧ atoms (store_results ext res s).2 = atoms s
  ∧ _disp (store_results ext res s).2 = _disp s
  ∧ calls (store_results ext res s).2 = calls s.
Proof.
  rewrite store_results_eq.
  destruct (atoms s) as [a|] eqn:Ha; [|by cbn].
  destruct (pbc_any a); [|by cbn].
  destruct (get_volume ext a) as [vol|e]; [|by cbn].
  destruct (py_take _ _); by cbn.
Qed.

Lemma evaluate_shape (s : DFTD3) :
  parameters (evaluate ext s).2 = parameters s
  ∧ atoms (evaluate ext s).2 = atoms s
  ∧ _disp (evaluate ext s).2 = _disp s
  ∧ ∃ lp ld, calls (evaluate ext s).2 = calls s ++ lp ++ ld
      ∧ (lp = [] ∨ ∃ cls, damping_lookup (parameters s) = Some cls
                     ∧ lp = [CallParam cls (damping_kwargs (parameters s))
                               (engine_param ext cls (damping_kwargs (parameters s)))])
      ∧ (ld = [] ∨ ∃ h dp, _disp s = Some h
                     ∧ ld = [CallDispersion h dp (raised (engine_dispersion ext h dp))]).
Proof.
  rewrite evaluate_cases.
  destruct (damping_lookup (parameters s)) as [cls|] eqn:Hcls.
  2:{ repeat (split; [done|]). exists [], []. rewrite app_nil_r.
      split; [done|]. split; by left. }
  cbn zeta.
  set (kw := damping_kwargs (parameters s)).
  set (dp := {| dp_class := cls; dp_kwargs := kw |}).
  assert (Hp : ∀ (o : outcome unit),
            parameters (o, log_call (CallParam cls kw (engine_param ext cls kw)) s).2
            = parameters s
            ∧ atoms (o, log_call (CallParam cls kw (engine_param ext cls kw)) s).2 = atoms s
            ∧ _disp (o, log_call (CallParam cls kw (engine_param ext cls kw)) s).2 = _disp s
            ∧ ∃ lp ld,
                calls (o, log_call (CallParam cls kw (engine_param ext cls kw)) s).2
                = calls s ++ lp ++ ld
                ∧ (lp = [] ∨ ∃ cls0, Some cls = Some cls0
                               ∧ lp = [CallParam cls0 kw (engine_param ext cls0 kw)])
                ∧ (ld = [] ∨ ∃ h dp0, _disp s = Some h
                       ∧ ld = [CallDispersion h dp0 (raised (engine_dispersion ext h dp0))])).
  { intros o. repeat (split; [done|]).
    exists [CallParam cls kw (engine_param ext cls kw)], [].
    split; [done|]. split; [right; by exists cls | by left]. }
  destruct (engine_param ext cls kw) as [e|] eqn:Hpar; [apply Hp|].
  destruct (_disp s) as [h|] eqn:Hd; [|apply Hp].
  destruct (engine_dispersion ext h dp) as [res|e] eqn:Hres.
  - destruct (store_results_frame res
                (log_call (CallDispersion h dp None) (log_call (CallParam cls kw None) s)))
      as (-> & -> & -> & ->).
    repeat (split; [by cbn|]).
    exists [CallParam cls kw None], [CallDispersion h dp None].
    split; [cbn; by rewrite <- app_assoc|].
    split; [right; exists cls; by rewrite Hpar|].
    right. exists h, dp. by rewrite Hres.
  - repeat (split; [by cbn|]).
    exists [CallParam cls kw None], [CallDispersion h dp (Some e)].
    split; [cbn; by rewrite <- app_assoc|].
    split; [right; exists cls; by rewrite Hpar|].
    right. exists h, dp. by rewrite Hres.
Qed.

(** Lines 255 to 286: what a calculation does at the engine.  Whatever the
    outcome, it leaves the parameters alone, holds the current structure
    afterwards, and adds to the log at most four calls in this order: an
    update of the model that was cached, a constructor call, a damping
    parameter call for the class of the table, and an evaluation.  The update
    and the constructor receive the positions and the cell of the current
    structure divided by Bohr. *)
Theorem calculate_calls_in_order
  (arg : option Atoms) (props changes : list string) (s : DFTD3) :
  parameters (calculate ext arg props changes s).2 = parameters s
  ∧ atoms (calculate ext arg props changes s).2 = current_atoms arg s
  ∧ ∃ lu ln lp ld,
      calls (calculate ext arg props changes s).2 = calls s ++ lu ++ ln ++ lp ++ ld
      ∧ (lu = [] ∨ ∃ h a, _disp s = Some h ∧ current_atoms arg s = Some a
           ∧ lu = [CallUpdate h (array2_div (positions a) (Bohr ext))
                     (array2_div (cell a) (Bohr ext))
                     (engine_update ext h (array2_div (positions a) (Bohr ext))
                        (array2_div (cell a) (Bohr ext)))])
      ∧ (ln = [] ∨ ∃ a, current_atoms arg s = Some a
           ∧ ln = [CallNew (numbers a) (array2_div (positions a) (Bohr ext))
                     (array2_div (cell a) (Bohr ext)) (pbc a)
                     (engine_new ext (numbers a) (array2_div (positions a) (Bohr ext))
                        (array2_div (cell a) (Bohr ext)) (pbc a))])
      ∧ (lp = [] ∨ ∃ cls, damping_lookup (parameters s) = Some cls
           ∧ lp = [CallParam cls (damping_kwargs (parameters s))
                     (engine_param ext cls (damping_kwargs (parameters s)))])
      ∧ (ld = [] ∨ ∃ h dp, ld = [CallDispersion h dp (raised (engine_dispersion ext h dp))]).
Proof.
  rewrite calculate_cases.
  set (s0 := set_atoms (current_atoms arg s) s).
  assert (P0 : parameters s0 = parameters s) by reflexivity.
  assert (A0 : atoms s0 = current_atoms arg s) by reflexivity.
  assert (C0 : calls s0 = calls s) by reflexivity.
  assert (D0 : _disp s0 = _disp s) by reflexivity.
  destruct (check_shape changes s0) as (P1 & A1 & _ & lu & C1 & Hu).
  rewrite P0 in P1. rewrite A0 in A1, Hu. rewrite C0 in C1. rewrite D0 in Hu.
  clearbody s0.
  destruct (_check_api_calculator ext changes s0) as [o1 s1]. cbn [fst snd] in *.
  destruct (ensure_model_shape s1) as (P2 & A2 & _ & ln & C2 & Hn).
  rewrite P1 in P2. rewrite A1 in A2, Hn. rewrite C1 in C2.
  assert (Hn' : ln = [] ∨ ∃ a, current_atoms arg s = Some a ∧ ln = [new_call ext a]).
  { destruct Hn as [|(a & _ & Ha & Hln)]; [by left|]. right. by exists a. }
  destruct (evaluate_shape (ensure_model ext s1).2) as (P3 & A3 & _ & lp & ld & C3 & Hp & Hd).
  rewrite P2 in P3, Hp. rewrite A2 in A3. rewrite C2 in C3.
  assert (Hd' : ld = [] ∨ ∃ h dp,
                  ld = [CallDispersion h dp (raised (engine_dispersion ext h dp))]).
  { destruct Hd as [|(h & dp & _ & Hld)]; [by left|]. right. by exists h, dp. }
  destruct o1 as [[]|e1].
  2:{ cbn [fst snd]. split; [done|]. split; [done|]. exists lu, [], [], [].
      rewrite !app_nil_r. by repeat split; auto. }
  destruct (ensure_model ext s1) as [o2 s2]. cbn [fst snd] in *.
  destruct o2 as [[]|e2].
  2:{ cbn [fst snd]. split; [done|]. split; [done|]. exists lu, ln, [], [].
      rewrite !app_nil_r. split; [by rewrite C2, <- app_assoc|].
      by repeat split; auto. }
  split; [done|]. split; [done|].
  exists lu, ln, lp, ld.
  split; [by rewrite C3, <- !app_assoc|].
  by repeat split.
Qed.

End Protocol.

(** ** The model a calculation evaluates *)

Section Regimes.

Variable ext : Externals.

Lemma evaluate_returns (s s' : DFTD3) :
  evaluate ext s = (Return tt, s') ->
  ∃ h dp, _disp s = Some h ∧ _disp s' = Some h
    ∧ last (calls s') = Some (CallDispersion h dp None).
Proof.
  rewrite evaluate_cases.
  destruct (damping_lookup (parameters s)) as [cls|]; [|discriminate].
  cbn zeta. destruct (engine_param ext cls _) as [e|]; [discriminate|].
  destruct (_disp s) as [h|] eqn:Hd; [|discriminate].
  destruct (engine_dispersion ext h _) as [res|e]; [|discriminate].
  intros Hrun. exists h, {| dp_class := cls; dp_kwargs := damping_kwargs (parameters s) |}.
  pose proof (store_results_frame ext res
                (log_call (CallDispersion h
                             {| dp_class := cls; dp_kwargs := damping_kwargs (parameters s) |}
                             None)
                   (log_call (CallParam cls (damping_kwargs (parameters s)) None) s)))
    as (_ & _ & Hdisp & Hcalls).
  rewrite Hrun in Hdisp, Hcalls. cbn in Hdisp, Hcalls.
  split; [done|]. split; [congruence|].
  by rewrite Hcalls, last_snoc.
Qed.

(** The stages after the check, from a state whose model, if any, is the
    model of the structure. *)
Lemma tail_on_model (s1 s' : DFTD3) (a : Atoms) :
  atoms s1 = Some a -> _disp s1 = None ∨ _disp s1 = Some (model_of ext a) ->
  match ensure_model ext s1 with
  | (Raise e, s2) => (Raise e, s2)
  | (Return _, s2) => evaluate ext s2
  end = (Return tt, s') ->
  _disp s' = Some (model_of ext a)
  ∧ ∃ dp, last (calls s') = Some (CallDispersion (model_of ext a) dp None).
Proof.
  intros Ha Hd. rewrite ensure_model_cases, Ha.
  destruct Hd as [Hd|Hd]; rewrite Hd.
  - destruct (engine_new ext _ _ _ _) as [e|]; [discriminate|].
    intros Hrun. apply evaluate_returns in Hrun as (h & dp & Hh & Hh' & Hlast).
    cbn in Hh. injection Hh as <-. split; [done|]. by exists dp.
  - intros Hrun. apply evaluate_returns in Hrun as (h & dp & Hh & Hh' & Hlast).
    rewrite Hd in Hh. injection Hh as <-. split; [done|]. by exists dp.
Qed.

(** Lines 198 to 222 and 269 to 275: when the change list is truthful (the
    cached model, if there is one, agrees with the structure on every input
    the list does not name), a calculation that succeeds has evaluated the
    model of the structure it was given, and that model is the one it leaves
    cached: numbers and periodicity of the structure, positions and cell
    divided by Bohr. *)
Theorem evaluation_on_current_structure
  (a : Atoms) (props changes : list string) (s s' : DFTD3) :
  (∀ h, _disp s = Some h -> agrees ext h a changes) ->
  calculate ext (Some a) props changes s = (Return tt, s') ->
  _disp s' = Some (model_of ext a)
  ∧ ∃ dp, last (calls s') = Some (CallDispersion (model_of ext a) dp None).
Proof.
  intros Hagree. rewrite calculate_cases, check_cases. cbn [current_atoms].
  cbn [_disp atoms set_atoms].
  destruct (truthy (_reset changes)) eqn:Hr.
  { apply tail_on_model; [done | by left]. }
  assert (Hnil : _reset changes = []) by (by destruct (_reset changes)).
  destruct (truthy changes) eqn:Hc.
  - destruct (_disp s) as [h|] eqn:Hd.
    2:{ apply tail_on_model; [done | left; by cbn]. }
    cbn zeta.
    destruct (engine_update ext h _ _) as [e|].
    { destruct (isinstance_RuntimeError e); [|discriminate].
      apply tail_on_model; [done | by left]. }
    apply tail_on_model; [done|]. right. cbn.
    destruct (Hagree h eq_refl) as (Hnum & Hpbc & _ & _).
    assert (Hother : ∀ x, x ≠ "positions" -> x ≠ "cell" -> x ∉ changes).
    { intros x Hp Hcell Hin. pose proof (_reset_other x changes Hin Hp Hcell) as Hx.
      rewrite Hnil in Hx. by apply elem_of_nil in Hx. }
    unfold model_updated, model_of.
    rewrite Hnum by (by apply Hother). by rewrite Hpbc by (by apply Hother).
  - assert (changes = []) as -> by (by destruct changes).
    destruct (_disp s) as [h|] eqn:Hd.
    2:{ apply tail_on_model; [done | left; by cbn]. }
    apply tail_on_model; [done|]. right. cbn. rewrite Hd.
    destruct (Hagree h eq_refl) as (Hnum & Hpbc & Hpos & Hcell).
    destruct h as [n p l per]. unfold model_of. simpl in *.
    rewrite Hnum, Hpbc, Hpos, Hcell by apply not_elem_of_nil. done.
Qed.

(** Lines 208 to 210 and 269 to 270: a change other than "positions" and
    "cell" makes a calculation start with the constructor, whatever model was
    cached and whatever [cache_api] says; when the engine accepts the
    structure, the model of the structure is cached afterwards. *)
Theorem other_change_rebuilds
  (a : Atoms) (props changes : list string) (s : DFTD3) (x : string) :
  x ∈ changes -> x ≠ "positions" -> x ≠ "cell" ->
  ∃ rest,
    calls (calculate ext (Some a) props changes s).2 = calls s ++ new_call ext a :: rest
    ∧ (engine_new ext (numbers a) (positions_bohr ext a) (cell_bohr ext a) (pbc a) = None ->
       _disp (calculate ext (Some a) props changes s).2 = Some (model_of ext a)).
Proof.
  intros Hin Hp Hc.
  assert (Hr : truthy (_reset changes) = true).
  { eapply truthy_elem. by apply _reset_other. }
  assert (Hrun : calculate ext (Some a) props changes s
                 = (ensure_model ext ;;; evaluate ext)%py
                     (set_disp None (set_atoms (Some a) s))).
  { rewrite calculate_cases. cbn [current_atoms]. rewrite check_discards by done.
    unfold bind. by destruct (ensure_model ext _) as [[[]|e] s2]. }
  rewrite Hrun.
  destruct (rebuild ext (set_disp None (set_atoms (Some a) s)) a) as (rest & Hrest & Hnew);
    [done | done |].
  exists rest. split; [exact Hrest|].
  intros Hok. by rewrite Hok in Hnew.
Qed.

(** Lines 212 to 218 and 269: when the change list is not empty, names only
    "positions" and "cell", neither twice, and the engine accepts the update,
    a calculation on a calculator with a cached model calls the update first
    and never the constructor, and the updated model is the one cached
    afterwards. *)
Theorem geometry_change_reuses_model
  (a : Atoms) (h : DispersionModel) (props changes : list string) (s : DFTD3) :
  changes ≠ [] -> NoDup changes ->
  (∀ x, x ∈ changes -> x = "positions" ∨ x = "cell") ->
  _disp s = Some h ->
  engine_update ext h (positions_bohr ext a) (cell_bohr ext a) = None ->
  ∃ rest,
    calls (calculate ext (Some a) props changes s).2 = calls s ++ update_call ext h a :: rest
    ∧ Forall (fun c => is_CallNew c = false) rest
    ∧ _disp (calculate ext (Some a) props changes s).2
      = Some (model_updated h (positions_bohr ext a) (cell_bohr ext a)).
Proof.
  intros Hne Hnd Hall Hd Hok.
  rewrite calculate_cases, check_cases. cbn [current_atoms _disp atoms set_atoms].
  rewrite (_reset_only_geometry changes Hnd Hall). cbn [truthy].
  replace (truthy changes) with true by (by destruct changes).
  rewrite Hd. cbn zeta. rewrite Hok.
  set (s1 := set_disp _ _).
  rewrite ensure_model_cases. cbn [_disp set_disp s1].
  destruct (evaluate_shape ext s1) as (_ & _ & Hkeep & lp & ld & Hcalls & Hp & Hdd).
  exists (lp ++ ld). split; [|split].
  - rewrite Hcalls. subst s1. cbn. unfold update_call. rewrite Hok.
    by rewrite <- app_assoc.
  - apply Forall_app. split.
    + destruct Hp as [->|(cls & _ & ->)]; by repeat constructor.
    + destruct Hdd as [->|(h' & dp & _ & ->)]; by repeat constructor.
  - by rewrite Hkeep.
Qed.

(** Lines 212 and 269: with an empty change list, a calculation on a
    calculator with a cached model calls neither the update nor the
    constructor; the cached model is evaluated as it is and stays cached. *)
Theorem no_change_keeps_model
  (arg : option Atoms) (h : DispersionModel) (props : list string) (s : DFTD3) :
  _disp s = Some h ->
  ∃ rest,
    calls (calculate ext arg props [] s).2 = calls s ++ rest
    ∧ Forall (fun c => is_CallNew c = false ∧ is_CallUpdate c = false) rest
    ∧ (∀ h' dp r, CallDispersion h' dp r ∈ rest -> h' = h)
    ∧ _disp (calculate ext arg props [] s).2 = Some h.
Proof.
  intros Hd.
  rewrite calculate_cases, check_cases. cbn [_reset py_in truthy].
  change (truthy (_reset [])) with false. cbn iota.
  set (s0 := set_atoms (current_atoms arg s) s).
  rewrite ensure_model_cases. cbn [_disp set_atoms s0]. rewrite Hd.
  destruct (evaluate_shape ext s0) as (_ & _ & Hkeep & lp & ld & Hcalls & Hp & Hdd).
  exists (lp ++ ld). split; [exact Hcalls|]. split; [|split].
  - apply Forall_app. split.
    + destruct Hp as [->|(cls & _ & ->)]; by repeat constructor.
    + destruct Hdd as [->|(h' & dp & _ & ->)]; by repeat constructor.
  - intros h' dp r Hin. apply elem_of_app in Hin as [Hin|Hin].
    + destruct Hp as [->|(cls & _ & ->)]; [by apply elem_of_nil in Hin|].
      apply list_elem_of_singleton in Hin. discriminate Hin.
    + destruct Hdd as [->|(h0 & dp0 & Hh0 & ->)]; [by apply elem_of_nil in Hin|].
      apply list_elem_of_singleton in Hin. injection Hin as -> _ _.
      cbn in Hh0. congruence.
  - rewrite Hkeep. exact Hd.
Qed.

End Regimes.

(** ** More on the results *)

Lemma py_take_length (l : array1) (idx : list nat) (v : array1) :
  py_take l idx = Return v -> List.length v = List.length idx.
Proof.
  revert v. induction idx as [|i idx IH]; simpl; intros v.
  - by intros [= <-].
  - destruct (l !! i); [|discriminate].
    destruct (py_take l idx) as [r|e]; [|discriminate].
    intros [= <-]. simpl. f_equal. by apply IH.
Qed.

Lemma py_take_in_range (l : array1) (idx : list nat) (v : array1) :
  py_take l idx = Return v -> ∀ i, i ∈ idx -> (i < List.length l)%nat.
Proof.
  revert v. induction idx as [|j idx IH]; simpl; intros v Hv i Hi.
  - by apply elem_of_nil in Hi.
  - destruct (l !! j) eqn:Hj; [|discriminate].
    destruct (py_take l idx) as [r|e]; [|discriminate].
    apply elem_of_cons in Hi as [->|Hi]; [by eapply lookup_lt_Some | by eapply IH].
Qed.

Lemma py_take_raises (l : array1) (idx : list nat) (e : exn) :
  py_take l idx = Raise e ->
  e = IndexError ∧ ∃ i, i ∈ idx ∧ (List.length l ≤ i)%nat.
Proof.
  induction idx as [|i idx IH]; simpl; [discriminate|].
  destruct (l !! i) eqn:Hi.
  - destruct (py_take l idx) as [r|e']; [discriminate|].
    intros [= ->]. destruct IH as (-> & j & Hj & Hlen); [done|].
    split; [done|]. exists j. split; [by apply elem_of_cons; right | done].
  - intros [= <-]. split; [done|]. exists i.
    split; [by apply elem_of_cons; left | by apply lookup_ge_None].
Qed.

Lemma flat_length_map (f : float -> float) (m : array2) :
  List.length (flat (map (map f) m)) = List.length (flat m).
Proof.
  unfold flat. induction m as [|row m IH]; simpl; [done|].
  by rewrite !length_app, length_map, IH.
Qed.

Section OutputsMore.

Variable ext : Externals.

(** Lines 280 and 281: after a successful calculation the stored energy is
    the engine's energy multiplied by Hartree, and the free energy is the
    same value. *)
Theorem energy_is_converted
  (arg : option Atoms) (props changes : list string) (s s' : DFTD3) :
  calculate ext arg props changes s = (Return tt, s') ->
  ∃ h dp res,
    last (calls s') = Some (CallDispersion h dp None)
    ∧ engine_dispersion ext h dp = Return res
    ∧ results s' !! "energy" = Some (Scalar (Float.mul (res_energy res) (Hartree ext)))
    ∧ results s' !! "free_energy"
      = Some (Scalar (Float.mul (res_energy res) (Hartree ext))).
Proof.
  intros Hrun.
  apply calculate_success in Hrun
    as (s1 & h & dp & res & a & _ & Hres & Hcalls & _ & _ & _ & _ & Hstore).
  exists h, dp, res.
  split; [by rewrite Hcalls, last_snoc|]. split; [done|].
  assert (Hkeep : ∀ k, k ≠ "stress" ->
            results s' !! k = results (stored ext res s1) !! k).
  { intros k Hk. destruct (pbc_any a).
    - destruct Hstore as (vol & v & _ & _ & ->). by rewrite lookup_insert_ne.
    - by rewrite Hstore. }
  rewrite !Hkeep by done. cbn.
  rewrite (lookup_insert_ne _ "forces" "energy") by done.
  rewrite (lookup_insert_ne _ "forces" "free_energy") by done.
  rewrite (lookup_insert_ne _ "free_energy" "energy") by done.
  by rewrite !lookup_insert_eq.
Qed.

(** Lines 284 to 286: a stress stored by a successful calculation on a
    periodic structure has exactly six components, and the engine's virial
    had at least nine entries. *)
Theorem stress_has_six_components
  (arg : option Atoms) (props changes : list string) (s s' : DFTD3) (a : Atoms) :
  calculate ext arg props changes s = (Return tt, s') ->
  atoms s' = Some a -> pbc_any a = true ->
  ∃ h dp res v,
    last (calls s') = Some (CallDispersion h dp None)
    ∧ engine_dispersion ext h dp = Return res
    ∧ results s' !! "stress" = Some (Vector v)
    ∧ List.length v = 6%nat
    ∧ (9 ≤ List.length (flat (res_virial res)))%nat.
Proof.
  intros Hrun Ha Hper.
  apply calculate_success in Hrun
    as (s1 & h & dp & res & a0 & _ & Hres & Hcalls & Ha0 & _ & _ & _ & Hstore).
  assert (a0 = a) as -> by congruence.
  rewrite Hper in Hstore. destruct Hstore as (vol & v & _ & Hv & ->).
  exists h, dp, res, v.
  split; [by rewrite Hcalls, last_snoc|]. split; [done|].
  split; [by rewrite lookup_insert_eq|].
  split; [by apply py_take_length in Hv|].
  assert (H8 : (8 < List.length (flat (stress_matrix ext res vol)))%nat).
  { apply (py_take_in_range _ _ _ Hv).
    do 2 (apply elem_of_cons; right). apply elem_of_cons; by left. }
  unfold stress_matrix, array2_div, array2_mul in H8.
  rewrite !flat_length_map in H8. lia.
Qed.

(** Lines 280 to 286: the results are stored one by one, the stress last.
    When a calculation raises after the engine's evaluation has succeeded,
    energy, free energy and forces of this evaluation are in the results all
    the same, and nothing else has changed there.  The exception is then the
    one of the missing structure, the one [get_volume] raised, or the
    [IndexError] of a virial with fewer than nine entries. *)
Theorem failure_after_evaluation_keeps_energy_and_forces
  (arg : option Atoms) (props changes : list string) (s : DFTD3)
  (pre : list call) (h : DispersionModel) (dp : DampingParam) (e : exn) :
  (calculate ext arg props changes s).1 = Raise e ->
  calls (calculate ext arg props changes s).2
  = calls s ++ pre ++ [CallDispersion h dp None] ->
  ∃ res,
    engine_dispersion ext h dp = Return res
    ∧ results (calculate ext arg props changes s).2
      = <["forces" := Matrix (array2_div (array2_mul (array2_neg (res_gradient res))
                                            (Hartree ext)) (Bohr ext))]>
          (<["free_energy" := Scalar (Float.mul (res_energy res) (Hartree ext))]>
             (<["energy" := Scalar (Float.mul (res_energy res) (Hartree ext))]>
                (results s)))
    ∧ ((current_atoms arg s = None ∧ e = AttributeError)
       ∨ ∃ a, current_atoms arg s = Some a ∧ pbc_any a = true
           ∧ (get_volume ext a = Raise e
              ∨ (e = IndexError ∧ (List.length (flat (res_virial res)) < 9)%nat))).
Proof.
  intros Hraise Hlog.
  destruct (calculate_run ext arg props changes s)
    as (s1 & (_ & Hr1 & l & Hl & Hquiet) & Ha1 & [[e0 He]|(h' & dp' & _ & He)]).
  { rewrite He in Hlog. cbn in Hlog. rewrite Hl in Hlog.
    apply app_inv_head in Hlog. subst l.
    apply Forall_app in Hquiet as [_ Hq]. by inversion Hq. }
  destruct (engine_dispersion ext h' dp') as [res|e'] eqn:Hres; rewrite He in *.
  2:{ cbn in Hlog. rewrite Hl, <- app_assoc in Hlog. apply app_inv_head in Hlog.
      apply app_inj_tail in Hlog as [_ [=]]. }
  pose proof (store_results_calls ext res (log_call (CallDispersion h' dp' None) s1)) as Hc.
  rewrite Hc in Hlog. cbn in Hlog. rewrite Hl, <- app_assoc in Hlog.
  apply app_inv_head in Hlog. apply app_inj_tail in Hlog as [_ [= -> ->]].
  exists res. split; [done|].
  rewrite store_results_eq in *. cbn [atoms log_call] in *.
  fold (current_atoms arg s) in Ha1. rewrite Ha1 in *.
  destruct (current_atoms arg s) as [a|].
  2:{ injection Hraise as <-. cbn. rewrite Hr1. split; [done | by left]. }
  destruct (pbc_any a) eqn:Hper; [|discriminate].
  destruct (get_volume ext a) as [vol|e1] eqn:Hvol.
  2:{ injection Hraise as <-. cbn. rewrite Hr1. split; [done|].
      right. exists a. by repeat split; [|left]. }
  destruct (py_take _ _) as [v|e1] eqn:Hv; [discriminate|].
  injection Hraise as <-. cbn. rewrite Hr1. split; [done|].
  right. exists a. split; [done|]. split; [done|]. right.
  apply py_take_raises in Hv as (-> & i & Hi & Hlen). split; [done|].
  unfold stress_matrix, array2_div, array2_mul in Hlen.
  rewrite !flat_length_map in Hlen.
  repeat (apply elem_of_cons in Hi as [->|Hi]; [lia|]).
  by apply elem_of_nil in Hi.
Qed.


End OutputsMore.

(** ** The further statements on the sample runs *)

(** The update that raises [TypeError] ends the calculation with it. *)
Lemma update_error_of_other_kind_propagates_witness :
  engine_update Faults.engine_update_type_error Sample.crystal_model
    (positions_bohr Faults.engine_update_type_error Sample.crystal)
    (cell_bohr Faults.engine_update_type_error Sample.crystal) = Some TypeError
  ∧ (calculate Faults.engine_update_type_error (Some Sample.crystal) [] ["positions"]
       (Sample.warm true)).1 = Raise TypeError
  ∧ _disp (calculate Faults.engine_update_type_error (Some Sample.crystal) []
             ["positions"] (Sample.warm true)).2 = Some Sample.crystal_model.
Proof.
  pose proof (update_error_of_other_kind_propagates Faults.engine_update_type_error
                (Sample.warm true) Sample.crystal Sample.crystal_model ["positions"] []
                TypeError eq_refl eq_refl eq_refl eq_refl eq_refl) as Hrun.
  rewrite Hrun. repeat split.
Defined.

(** The refused crystal gives [InputError] on a new calculator. *)
Lemma refused_structure_is_input_error_witness :
  isinstance_RuntimeError RuntimeError = true
  ∧ (calculate Faults.engine_refusing (Some Sample.crystal) [] all_changes
       (Runs.cold true)).1 = Raise InputError
  ∧ _disp (calculate Faults.engine_refusing (Some Sample.crystal) [] all_changes
             (Runs.cold true)).2 = None
  ∧ results (calculate Faults.engine_refusing (Some Sample.crystal) [] all_changes
               (Runs.cold true)).2 = ∅.
Proof.
  pose proof (refused_structure_is_input_error Faults.engine_refusing (Runs.cold true)
                Sample.crystal all_changes [] RuntimeError (or_introl eq_refl)
                eq_refl eq_refl) as Hrun.
  rewrite Hrun. repeat split.
Defined.

(** The name "d3bj" selects the rational damping class. *)
Lemma create_damping_param_known_name_witness :
  damping (parameters (Runs.cold true)) = Some "d3bj"
  ∧ "d3bj" ∈ known_damping_names
  ∧ (_create_damping_param Sample.engine (Runs.cold true)).1 = Return Runs.pbe_param.
Proof.
  assert (Hin : "d3bj" ∈ known_damping_names) by (apply elem_of_cons; by left).
  destruct (create_damping_param_known_name Sample.engine (Runs.cold true) "d3bj"
              eq_refl Hin) as (cls & Hcls & Hrun).
  split; [reflexivity|]. split; [exact Hin|].
  rewrite Hrun. injection Hcls as <-. reflexivity.
Defined.

Lemma reported_run_succeeds :
  calculate Sample.engine (Some Sample.crystal) [] ["positions"] (Sample.warm true)
  = (Return tt, Faults.reported.2).
Proof. vm_compute; reflexivity. Defined.

Lemma crystal_model_agrees :
  ∀ h, _disp (Sample.warm true) = Some h ->
    agrees Sample.engine h Sample.crystal ["positions"].
Proof. intros h [= <-]. by repeat split. Defined.

(** The reported move ends with the model of the crystal cached. *)
Lemma evaluation_on_current_structure_witness :
  (∀ h, _disp (Sample.warm true) = Some h ->
     agrees Sample.engine h Sample.crystal ["positions"])
  ∧ calculate Sample.engine (Some Sample.crystal) [] ["positions"] (Sample.warm true)
    = (Return tt, Faults.reported.2)
  ∧ _disp Faults.reported.2 = Some (model_of Sample.engine Sample.crystal).
Proof.
  split; [exact crystal_model_agrees|]. split; [exact reported_run_succeeds|].
  exact (proj1 (evaluation_on_current_structure Sample.engine Sample.crystal []
                  ["positions"] (Sample.warm true) Faults.reported.2
                  crystal_model_agrees reported_run_succeeds)).
Defined.

(** The change "numbers" makes the constructor the first call, also with a
    cached model. *)
Lemma other_change_rebuilds_witness :
  "numbers" ∈ ["positions"; "numbers"]
  ∧ ∃ rest,
      calls (calculate Sample.engine (Some Sample.crystal) [] ["positions"; "numbers"]
               (Sample.warm true)).2
      = new_call Sample.engine Sample.crystal :: rest.
Proof.
  assert (Hin : "numbers" ∈ ["positions"; "numbers"]).
  { apply elem_of_cons; right. apply elem_of_cons; by left. }
  split; [exact Hin|].
  destruct (other_change_rebuilds Sample.engine Sample.crystal [] ["positions"; "numbers"]
              (Sample.warm true) "numbers" Hin) as (rest & Hrest & _);
    [discriminate | discriminate |].
  exists rest. exact Hrest.
Defined.

(** The changes "positions" and "cell" are answered by an update alone. *)
Lemma geometry_change_reuses_model_witness :
  _disp (Sample.warm true) = Some Sample.crystal_model
  ∧ Runs.built (calls (calculate Sample.engine (Some Sample.crystal) []
                         ["positions"; "cell"] (Sample.warm true)).2) = 0%nat
  ∧ ∃ rest,
      calls (calculate Sample.engine (Some Sample.crystal) [] ["positions"; "cell"]
               (Sample.warm true)).2
      = update_call Sample.engine Sample.crystal_model Sample.crystal :: rest.
Proof.
  assert (Hnd : NoDup ["positions"; "cell"]).
  { apply NoDup_cons; split.
    - intros Hin. apply elem_of_cons in Hin as [Hin|Hin]; [discriminate Hin|].
      by apply elem_of_nil in Hin.
    - apply NoDup_cons; split; [apply not_elem_of_nil | apply NoDup_nil_2]. }
  assert (Hall : ∀ x, x ∈ ["positions"; "cell"] -> x = "positions" ∨ x = "cell").
  { intros x Hin. apply elem_of_cons in Hin as [->|Hin]; [by left|].
    apply elem_of_cons in Hin as [->|Hin]; [by right|].
    by apply elem_of_nil in Hin. }
  destruct (geometry_change_reuses_model Sample.engine Sample.crystal Sample.crystal_model
              [] ["positions"; "cell"] (Sample.warm true))
    as (rest & Hrest & _ & _); [discriminate | exact Hnd | exact Hall | reflexivity
                               | reflexivity |].
  split; [reflexivity|]. split; [vm_compute; reflexivity|].
  exists rest. exact Hrest.
Defined.

(** Without changes the cached model of the crystal is evaluated as it is. *)
Lemma no_change_keeps_model_witness :
  _disp (Sample.warm true) = Some Sample.crystal_model
  ∧ _disp (calculate Sample.engine None [] [] (Sample.warm true)).2
    = Some Sample.crystal_model.
Proof.
  destruct (no_change_keeps_model Sample.engine None Sample.crystal_model []
              (Sample.warm true) eq_refl) as (rest & _ & _ & _ & Hkeep).
  split; [reflexivity | exact Hkeep].
Defined.

(** The energy -1 of the sample answer is stored as -1 times Hartree. *)
Lemma energy_is_converted_witness :
  calculate Sample.engine (Some Sample.crystal) [] all_changes (Runs.cold true)
  = (Return tt, (Runs.first true).2)
  ∧ results (Runs.first true).2 !! "energy"
    = Some (Scalar (Float.mul (Sample.z (-1)) Sample.Hartree_2014)).
Proof.
  destruct (energy_is_converted Sample.engine (Some Sample.crystal) [] all_changes
              (Runs.cold true) (Runs.first true).2 (first_run_succeeds true))
    as (h & dp & res & _ & Hres & Henergy & _).
  injection Hres as <-.
  split; [exact (first_run_succeeds true) | exact Henergy].
Defined.

(** The stress of the crystal has six components. *)
Lemma stress_has_six_components_witness :
  calculate Sample.engine (Some Sample.crystal) [] all_changes (Runs.cold true)
  = (Return tt, (Runs.first true).2)
  ∧ atoms (Runs.first true).2 = Some Sample.crystal
  ∧ pbc_any Sample.crystal = true
  ∧ ∃ v, results (Runs.first true).2 !! "stress" = Some (Vector v)
      ∧ List.length v = 6%nat.
Proof.
  destruct (stress_has_six_components Sample.engine (Some Sample.crystal) [] all_changes
              (Runs.cold true) (Runs.first true).2 Sample.crystal
              (first_run_succeeds true) eq_refl eq_refl)
    as (h & dp & res & v & _ & _ & Hstress & Hlen & _).
  split; [exact (first_run_succeeds true)|]. split; [reflexivity|].
  split; [reflexivity|]. exists v. by split.
Defined.

(** The crystal without a volume: [ValueError], with energy and forces
    stored and no stress. *)
Lemma failure_after_evaluation_keeps_energy_and_forces_witness :
  Faults.no_volume.1 = Raise ValueError
  ∧ calls Faults.no_volume.2
    = calls (Runs.cold true)
      ++ [new_call Faults.engine_no_volume Sample.crystal;
          CallParam RationalDampingParam {[ "method" := PyStr "pbe" ]} None]
      ++ [CallDispersion Sample.crystal_model Runs.pbe_param None]
  ∧ is_Some (results Faults.no_volume.2 !! "energy")
  ∧ is_Some (results Faults.no_volume.2 !! "forces")
  ∧ results Faults.no_volume.2 !! "stress" = None.
Proof.
  assert (Hraise : Faults.no_volume.1 = Raise ValueError) by (vm_compute; reflexivity).
  assert (Hlog : calls Faults.no_volume.2
            = calls (Runs.cold true)
              ++ [new_call Faults.engine_no_volume Sample.crystal;
                  CallParam RationalDampingParam {[ "method" := PyStr "pbe" ]} None]
              ++ [CallDispersion Sample.crystal_model Runs.pbe_param None])
    by (vm_compute; reflexivity).
  destruct (failure_after_evaluation_keeps_energy_and_forces Faults.engine_no_volume
              (Some Sample.crystal) [] all_changes (Runs.cold true) _ _ _ _ Hraise Hlog)
    as (res & _ & Hresults & _).
  split; [exact Hraise|]. split; [exact Hlog|].
  unfold Faults.no_volume. rewrite Hresults.
  split; [|split].
  - rewrite !lookup_insert_ne by done. rewrite lookup_insert_eq. by eexists.
  - rewrite lookup_insert_eq. by eexists.
  - rewrite !lookup_insert_ne by done. apply lookup_empty.
Defined.


